(** * ReWear: the swap and points settlement engine

    A shallow embedding of the swap routes of the backend
    ([routes/swaps.js]: create, accept, decline, cancel), of the Mongoose
    schemas they write through ([models/User.js], [models/Item.js],
    [models/Swap.js], [models/Activity.js]) and of the admin points
    adjustment ([routes/admin.js]).

    The four collections are finite maps keyed by [_id]; every route handler
    is a computation in a small state-and-exit monad: the store is threaded
    through the awaited calls in program order, [return res.status(..)] leaves
    the handler with a response, and a rejected promise or a [TypeError]
    jumps to the handler's [catch] block.  Writes made before the jump stay
    in the store: there is no transaction around a handler. *)

From stdpp Require Import gmap strings list fin_maps pretty.
From Stdlib Require Import ZArith Lia.
From Stdlib Require PrimFloat FloatOps Uint63.

Local Open Scope string_scope.
Local Open Scope Z_scope.

(** [mongoose.Schema.Types.ObjectId]: a 12-byte value, here a natural number. *)
Abbreviation ObjectId := N.

(** ** Strings: the [trim: true] setter of the schemas *)

(** White space removed by [String.prototype.trim], on the ASCII range:
    TAB, LF, VT, FF, CR and SPACE. *)
Definition is_space (c : Ascii.ascii) : bool :=
  let n := Ascii.nat_of_ascii c in
  ((9 <=? n)%nat && (n <=? 13)%nat) || (n =? 32)%nat.

Fixpoint trim_start (s : string) : string :=
  match s with
  | String c s' => if is_space c then trim_start s' else s
  | EmptyString => EmptyString
  end.

Fixpoint trim_end (s : string) : string :=
  match s with
  | String c s' =>
      match trim_end s' with
      | EmptyString => if is_space c then EmptyString else String c EmptyString
      | t => String c t
      end
  | EmptyString => EmptyString
  end.

Definition trim (s : string) : string := trim_end (trim_start s).

(** ** models/User.js *)

Module User.

Record t : Type := mk {
  points : Z;        (* type: Number, default: 0 *)
  level  : string    (* default: 'Newcomer' *)
}.

Definition level_enum : list string :=
  ["Newcomer"; "Fashion Enthusiast"; "Eco Champion"; "Swap Master"].

(** [userSchema.methods.updateLevel]. *)
Definition updateLevel (u : t) : t :=
  if 1000 <=? points u then mk (points u) "Swap Master"
  else if 500 <=? points u then mk (points u) "Eco Champion"
  else if 100 <=? points u then mk (points u) "Fashion Enthusiast"
  else mk (points u) "Newcomer".

(** [{ $inc: { points: d } }]: an update operator applied by the database;
    no document method runs. *)
Definition inc_points (d : Z) (u : t) : t := mk (points u + d) (level u).

End User.

(** ** models/Item.js *)

Module Item.

Inductive Status : Type := pending | available | swapped | removed.

#[global] Instance Status_eq_dec : EqDecision Status.
Proof. solve_decision. Defined.

Record t : Type := mk {
  user_id : ObjectId;   (* the owner *)
  title   : string;
  points  : Z;          (* min: 0, max: 10000; an integer (parseInt) *)
  status  : Status      (* default: 'pending' *)
}.

Definition set_status (st : Status) (i : t) : t :=
  mk (user_id i) (title i) (points i) st.

End Item.

(** ** models/Swap.js *)

Module Swap.

Inductive Status : Type := pending | accepted | declined | cancelled | completed.

#[global] Instance Status_eq_dec : EqDecision Status.
Proof. solve_decision. Defined.

Record t : Type := mk {
  requester_id    : ObjectId;
  item_id         : ObjectId;
  offered_item_id : option ObjectId;
  status          : Status;     (* default: 'pending' *)
  points_offered  : Z;          (* default: 0, min: 0 *)
  message         : string      (* trim: true, maxlength: 500 *)
}.

Definition set_status (st : Status) (s : t) : t :=
  mk (requester_id s) (item_id s) (offered_item_id s) st
     (points_offered s) (message s).

(** [new Swap({ requester_id, item_id, offered_item_id, points_offered,
    message })]: no [status] is passed, so the schema default applies;
    the [trim] setter runs on assignment. *)
Definition new (requester item : ObjectId) (offered : option ObjectId)
    (pts : Z) (msg : string) : t :=
  mk requester item offered pending pts (trim msg).

(** The validators that run on [save]. *)
Definition validate (s : t) : bool :=
  (0 <=? points_offered s) && (String.length (message s) <=? 500)%nat.

End Swap.

(** ** models/Activity.js *)

Module Activity.

Record t : Type := mk {
  user_id         : ObjectId;
  type            : string;
  description     : string;     (* required, trim: true *)
  points          : Z;          (* default: 0 *)
  related_item_id : option ObjectId
}.

Definition type_enum : list string :=
  ["item_listed"; "swap_request"; "swap_completed"; "swap_declined";
   "item_liked"; "points_earned"].

Definition new (user : ObjectId) (ty desc : string) (pts : Z)
    (item : option ObjectId) : t :=
  mk user ty (trim desc) pts item.

(** [required] rejects the empty string, [enum] any value off the list. *)
Definition validate (a : t) : bool :=
  bool_decide (type a ∈ type_enum) && negb (String.eqb (description a) "").

End Activity.

(** ** The store *)

Record Db : Type := mkDb {
  users      : gmap N User.t;
  items      : gmap N Item.t;
  swaps      : gmap N Swap.t;
  activities : list Activity.t     (* in insertion order *)
}.

Definition set_users (f : gmap N User.t → gmap N User.t) (db : Db) : Db :=
  mkDb (f (users db)) (items db) (swaps db) (activities db).
Definition set_items (f : gmap N Item.t → gmap N Item.t) (db : Db) : Db :=
  mkDb (users db) (f (items db)) (swaps db) (activities db).
Definition set_swaps (f : gmap N Swap.t → gmap N Swap.t) (db : Db) : Db :=
  mkDb (users db) (items db) (f (swaps db)) (activities db).
Definition set_activities (f : list Activity.t → list Activity.t) (db : Db) : Db :=
  mkDb (users db) (items db) (swaps db) (f (activities db)).

(** Sum of all balances. *)
Definition sum_points (m : gmap N User.t) : Z :=
  map_fold (λ _ u acc, User.points u + acc) 0 m.

Definition total_points (db : Db) : Z := sum_points (users db).

(** ** Responses and the handler monad *)

Inductive Response : Type :=
  | Success (status : nat) (id : option ObjectId) (message : string)
      (* res.status(status).json({ id?, message }) *)
  | Failure (status : nat) (error : string) (message : option string).
      (* res.status(status).json({ error, message? }) *)

Definition is_error (r : Response) : bool :=
  match r with Success _ _ _ => false | Failure _ _ _ => true end.

Inductive Outcome (A : Type) : Type :=
  | Value (a : A)              (* the awaited call resolved *)
  | Responded (r : Response)   (* return res.status(..).json(..) *)
  | Thrown.                    (* rejected promise or TypeError *)
Arguments Value {A} a.
Arguments Responded {A} r.
Arguments Thrown {A}.

Definition M (A : Type) : Type := Db → Db * Outcome A.

#[export] Instance M_ret : MRet M := λ A a db, (db, Value a).

#[export] Instance M_bind : MBind M := λ A B k m db,
  match m db with
  | (db', Value a) => k a db'
  | (db', Responded r) => (db', Responded r)
  | (db', Thrown) => (db', Thrown)
  end.

Definition respond {A} (r : Response) : M A := λ db, (db, Responded r).
Definition throw {A} : M A := λ db, (db, Thrown).
Definition gets {A} (f : Db → A) : M A := λ db, (db, Value (f db)).
Definition modify (f : Db → Db) : M unit := λ db, (f db, Value tt).

(** [if (c) { return res... }] *)
Definition when_respond (c : bool) (r : Response) : M unit :=
  if c then respond r else mret tt.

(** [try { body } catch (error) { res.status(500).json({ error: msg }) }] *)
Definition try_catch (body : M Response) (msg : string) (db : Db) : Db * Response :=
  match body db with
  | (db', Value r) => (db', r)
  | (db', Responded r) => (db', r)
  | (db', Thrown) => (db', Failure 500 msg None)
  end.

(** ** Mongoose calls *)

Definition User_findById (id : ObjectId) : M (option User.t) :=
  gets (λ db, users db !! id).

Definition Item_findById (id : ObjectId) : M (option Item.t) :=
  gets (λ db, items db !! id).

Definition Swap_findById (id : ObjectId) : M (option Swap.t) :=
  gets (λ db, swaps db !! id).

(** [Swap.findOne({ requester_id, item_id, status: 'pending' })], as the
    truth value the handler tests. *)
Definition is_pending_for (requester item : ObjectId) (s : Swap.t) : bool :=
  bool_decide (Swap.requester_id s = requester) &&
  bool_decide (Swap.item_id s = item) &&
  bool_decide (Swap.status s = Swap.pending).

Definition Swap_exists_pending (requester item : ObjectId) : M bool :=
  gets (λ db, existsb (λ kv, is_pending_for requester item kv.2)
                (map_to_list (swaps db))).

(** [Item.findByIdAndUpdate(id, { status })]: nothing happens when no
    document has this id. *)
Definition Item_findByIdAndUpdate_status (id : ObjectId) (st : Item.Status) : M unit :=
  modify (set_items (alter (Item.set_status st) id)).

(** [User.findByIdAndUpdate(id, { $inc: { points: d } })]. *)
Definition User_findByIdAndUpdate_inc (id : ObjectId) (d : Z) : M unit :=
  modify (set_users (alter (User.inc_points d) id)).

(** [await swap.save()] on a new document: validation, then an insert under
    a fresh [_id]. *)
Definition Swap_save_new (s : Swap.t) : M ObjectId := λ db,
  if Swap.validate s then
    let id := fresh (dom (swaps db)) in
    (set_swaps (insert id s) db, Value id)
  else (db, Thrown).

(** [swap.status = st; await swap.save()] on a document read from the
    store: only [status] is modified and [st] is on the enum list. *)
Definition Swap_save_status (id : ObjectId) (st : Swap.Status) : M unit :=
  modify (set_swaps (alter (Swap.set_status st) id)).

(** [await activity.save()]. *)
Definition Activity_save (a : Activity.t) : M unit := λ db,
  if Activity.validate a then (set_activities (λ l, (l ++ [a])%list) db, Value tt)
  else (db, Thrown).

(** [await user.save()] on a document read from the store. *)
Definition User_save (id : ObjectId) (u : User.t) : M unit := λ db,
  if bool_decide (User.level u ∈ User.level_enum)
  then (set_users (insert id u) db, Value tt)
  else (db, Thrown).

(** ** JavaScript expressions of the handlers *)

(** [x >= n] where [x] may be [undefined]: the comparison with [NaN] is
    false. *)
Definition js_ge (x : option Z) (n : Z) : bool :=
  match x with Some v => n <=? v | None => false end.

(** [x || 0] and [s || ''] . *)
Definition js_or_zero (x : option Z) : Z := default 0 x.
Definition js_or_empty (s : option string) : string := default "" s.

(** IEEE 754 binary64 numbers, as far as the award needs them. *)

Module Double.

Import PrimFloat.

(** The literal [0.1]: the double nearest to one tenth. *)
Definition tenth : float := 0x1.999999999999ap-4%float.

(** An integer as a double, rounded to nearest; exact up to 2^53 in
    absolute value (taken below 2^63). *)
Definition of_Z (z : Z) : float :=
  match z with
  | Z0 => zero
  | Zpos _ => of_uint63 (Uint63.of_Z z)
  | Zneg p => opp (of_uint63 (Uint63.of_Z (Zpos p)))
  end.

(** [Math.floor] of a finite double, as an integer. *)
Definition floor (f : float) : Z :=
  match FloatOps.Prim2SF f with
  | SpecFloat.S754_finite false m e =>
      if 0 <=? e then Z.shiftl (Zpos m) e else Z.shiftr (Zpos m) (- e)
  | SpecFloat.S754_finite true m e =>
      if 0 <=? e then - Z.shiftl (Zpos m) e
      else - Z.shiftr (Zpos m - 1) (- e) - 1
  | _ => 0
  end.

End Double.

(** [Math.floor(points * 0.1)]: the product of two doubles, rounded to
    nearest, then the floor.  This is not the quotient by ten on every
    integer (8999999999999999 gives 900000000000000); it is on the range the
    item schema allows, see [pointsToAward_schema]. *)
Definition pointsToAward (points : Z) : Z :=
  Double.floor (PrimFloat.mul (Double.of_Z points) Double.tenth).

Arguments pointsToAward : simpl never.

(** The award is the quotient by ten on every valuation from [n] down to 0. *)
Fixpoint award_is_quotient_upto (n : nat) : bool :=
  (pointsToAward (Z.of_nat n) =? Z.of_nat n / 10) &&
  match n with O => true | S k => award_is_quotient_upto k end.

(** [if (!x) return res...] *)
Definition unless_some {A} (x : option A) (r : Response) : M A :=
  match x with Some a => mret a | None => respond r end.

(** A property read on a reference that [populate] left [null]. *)
Definition deref {A} (x : option A) : M A :=
  match x with Some a => mret a | None => throw end.

(** [.populate('user_id', 'username')]: the reference is replaced by the
    user document, or by [null] when there is none. *)
Definition populate_user (uid : ObjectId) : M (option ObjectId) :=
  gets (λ db, match users db !! uid with Some _ => Some uid | None => None end).

(** ** routes/swaps.js *)

Record CreateBody : Type := mkBody {
  body_item_id         : option ObjectId;
  body_offered_item_id : option ObjectId;
  body_points_offered  : option Z;
  body_message         : option string
}.

Definition insufficient_points (required : Z) (user : option User.t) : Response :=
  Failure 400 "Insufficient points"
    (Some ("You need " +:+ pretty required +:+
           " points to redeem this item. You have " +:+
           pretty (match user with
                   | Some u => if User.points u =? 0 then 0 else User.points u
                   | None => 0
                   end) +:+
           " points.")).

(** The offered item of a direct swap: it exists, is the requester's and is
    available. *)
Definition validate_offered (requester_id : ObjectId) (offered : option ObjectId) : M unit :=
  match offered with
  | Some oid =>
      offeredItem ← Item_findById oid;
      o ← unless_some offeredItem (Failure 404 "Offered item not found" None);
      when_respond (negb (bool_decide (Item.user_id o = requester_id)))
        (Failure 403 "You can only offer your own items" None);;
      when_respond (negb (bool_decide (Item.status o = Item.available)))
        (Failure 400 "Offered item must be available" None)
  | None => mret tt
  end.

(** The point-redemption block of [router.post('/')]. *)
Definition redeem (requester_id item_id owner_id : ObjectId) (item : Item.t) : M unit :=
  user ← User_findById requester_id;
  match user with
  | Some u =>
      if User.points u <? Item.points item
      then respond (insufficient_points (Item.points item) user)
      else
        Item_findByIdAndUpdate_status item_id Item.swapped;;
        User_findByIdAndUpdate_inc requester_id (- Item.points item);;
        User_findByIdAndUpdate_inc owner_id (Item.points item)
  | None => respond (insufficient_points (Item.points item) user)
  end.

(** [router.post('/')]: create a swap request.  First the checks, which
    only read the store: they yield the item id, the item and the owner's
    id ([item.user_id._id]). *)
Definition create_checks (requester_id : ObjectId) (req : CreateBody)
    : M (ObjectId * Item.t * ObjectId) :=
  item_id ← unless_some (body_item_id req) (Failure 400 "Item ID is required" None);
  found ← Item_findById item_id;
  owner ← match found with
          | Some i => populate_user (Item.user_id i)
          | None => mret None
          end;
  item ← match found with
         | Some i =>
             if bool_decide (Item.status i = Item.available) then mret i
             else respond (Failure 404 "Item not found or not available" None)
         | None => respond (Failure 404 "Item not found or not available" None)
         end;
  owner_id ← deref owner;
  when_respond (bool_decide (owner_id = requester_id))
    (Failure 400 "Cannot swap your own item" None);;
  existingSwap ← Swap_exists_pending requester_id item_id;
  when_respond existingSwap
    (Failure 400 "You already have a pending swap request for this item" None);;
  validate_offered requester_id (body_offered_item_id req);;
  mret (item_id, item, owner_id).

(** Then the writes: the redemption block when the offer reaches the item's
    valuation, the swap document, the activity record and the response. *)
Definition create_writes (requester_id : ObjectId) (req : CreateBody)
    (item_id : ObjectId) (item : Item.t) (owner_id : ObjectId) : M Response :=
  let redemption := js_ge (body_points_offered req) (Item.points item) in
  (if redemption then redeem requester_id item_id owner_id item else mret tt);;
  swap_id ← Swap_save_new
    (Swap.new requester_id item_id (body_offered_item_id req)
       (js_or_zero (body_points_offered req)) (js_or_empty (body_message req)));
  Activity_save
    (Activity.new requester_id
       (if redemption then "point_redemption" else "swap_request")
       (if redemption
        then "Redeemed " +:+ Item.title item +:+ " with " +:+
             pretty (Item.points item) +:+ " points"
        else "Requested swap for " +:+ Item.title item)
       (if redemption then - Item.points item else 0)
       (Some item_id));;
  mret (Success 201 (Some swap_id)
          (if redemption then "Item redeemed successfully"
           else "Swap request created successfully")).

Definition create_body (requester_id : ObjectId) (req : CreateBody) : M Response :=
  '(item_id, item, owner_id) ← create_checks requester_id req;
  create_writes requester_id req item_id item owner_id.

Definition create (requester_id : ObjectId) (req : CreateBody) : Db → Db * Response :=
  try_catch (create_body requester_id req) "Failed to create swap request".

(** [Swap.findById(id).populate('item_id')]. *)
Definition Swap_findById_populate_item (id : ObjectId)
    : M (option (Swap.t * option Item.t)) :=
  gets (λ db, (λ s, (s, items db !! Swap.item_id s)) <$> swaps db !! id).

(** [router.put('/:id/accept')]. *)
Definition accept_body (id userId : ObjectId) : M Response :=
  found ← Swap_findById_populate_item id;
  '(swap, populated) ← unless_some found (Failure 404 "Swap request not found" None);
  item ← deref populated;
  when_respond (negb (bool_decide (Item.user_id item = userId)))
    (Failure 403 "Only the item owner can accept swap requests" None);;
  when_respond (negb (bool_decide (Swap.status swap = Swap.pending)))
    (Failure 400 "Swap request is no longer pending" None);;
  Swap_save_status id Swap.completed;;
  Item_findByIdAndUpdate_status (Swap.item_id swap) Item.swapped;;
  let award := pointsToAward (Item.points item) in
  User_findByIdAndUpdate_inc (Swap.requester_id swap) award;;
  User_findByIdAndUpdate_inc userId award;;
  Activity_save
    (Activity.new (Swap.requester_id swap) "swap_completed"
       ("Successfully swapped " +:+ Item.title item) award
       (Some (Swap.item_id swap)));;
  Activity_save
    (Activity.new userId "swap_completed"
       ("Accepted swap for " +:+ Item.title item) award
       (Some (Swap.item_id swap)));;
  mret (Success 200 None "Swap request accepted successfully").

Definition accept (id userId : ObjectId) : Db → Db * Response :=
  try_catch (accept_body id userId) "Failed to accept swap request".

(** [router.put('/:id/decline')]. *)
Definition decline_body (id userId : ObjectId) : M Response :=
  found ← Swap_findById_populate_item id;
  '(swap, populated) ← unless_some found (Failure 404 "Swap request not found" None);
  item ← deref populated;
  when_respond (negb (bool_decide (Item.user_id item = userId)))
    (Failure 403 "Only the item owner can decline swap requests" None);;
  when_respond (negb (bool_decide (Swap.status swap = Swap.pending)))
    (Failure 400 "Swap request is no longer pending" None);;
  Swap_save_status id Swap.declined;;
  Activity_save
    (Activity.new (Swap.requester_id swap) "swap_declined"
       ("Swap request for " +:+ Item.title item +:+ " was declined") 0
       (Some (Swap.item_id swap)));;
  mret (Success 200 None "Swap request declined successfully").

Definition decline (id userId : ObjectId) : Db → Db * Response :=
  try_catch (decline_body id userId) "Failed to decline swap request".

(** [router.put('/:id/cancel')]: the populated item is never read. *)
Definition cancel_body (id userId : ObjectId) : M Response :=
  found ← Swap_findById id;
  swap ← unless_some found (Failure 404 "Swap request not found" None);
  when_respond (negb (bool_decide (Swap.requester_id swap = userId)))
    (Failure 403 "Only the requester can cancel swap requests" None);;
  when_respond (negb (bool_decide (Swap.status swap = Swap.pending)))
    (Failure 400 "Swap request is no longer pending" None);;
  Swap_save_status id Swap.cancelled;;
  mret (Success 200 None "Swap request cancelled successfully").

Definition cancel (id userId : ObjectId) : Db → Db * Response :=
  try_catch (cancel_body id userId) "Failed to cancel swap request".

(** ** routes/admin.js: [router.put('/users/:id/points')]

    [points] is the result of [parseInt], [None] standing for [NaN]. *)
Definition adjust_points_body (id : ObjectId) (points : option Z) (reason : string)
    : M Response :=
  found ← User_findById id;
  user ← unless_some found (Failure 404 "User not found" None);
  pointsChange ← unless_some points (Failure 400 "Invalid points value" None);
  User_save id
    (User.updateLevel (User.mk (User.points user + pointsChange) (User.level user)));;
  Activity_save
    (Activity.new id "points_adjusted"
       ("Points adjusted by admin: " +:+ (if 0 <? pointsChange then "+" else "") +:+
        pretty pointsChange +:+ " (" +:+ reason +:+ ")")
       pointsChange None);;
  mret (Success 200 None "User points adjusted successfully").

Definition adjust_points (id : ObjectId) (points : option Z) (reason : string)
    : Db → Db * Response :=
  try_catch (adjust_points_body id points reason) "Failed to adjust user points".

(** ** Preconditions of the claims *)

(** No swap of this requester on this item is pending. *)
Definition no_pending_swap (db : Db) (requester item : ObjectId) : Prop :=
  ∀ k s, swaps db !! k = Some s →
    Swap.requester_id s = requester → Swap.item_id s = item →
    Swap.status s ≠ Swap.pending.

(** The offered item, when there is one, is the requester's and available. *)
Definition offered_ok (db : Db) (requester : ObjectId) (offered : option ObjectId) : Prop :=
  match offered with
  | Some oid => ∃ o, items db !! oid = Some o ∧
                     Item.user_id o = requester ∧ Item.status o = Item.available
  | None => True
  end.

(** The request passes every check of [create_checks]: the target item is
    there and available, its owner exists and is not the requester, there
    is no pending duplicate and the offered item is valid. *)
Record eligible (db : Db) (requester : ObjectId) (req : CreateBody)
    (iid : ObjectId) (item : Item.t) : Prop := mkEligible {
  el_item_id   : body_item_id req = Some iid;
  el_item      : items db !! iid = Some item;
  el_available : Item.status item = Item.available;
  el_owner     : is_Some (users db !! Item.user_id item);
  el_not_own   : Item.user_id item ≠ requester;
  el_no_dup    : no_pending_swap db requester iid;
  el_offered   : offered_ok db requester (body_offered_item_id req)
}.

(** The store after the three writes of the redemption block. *)
Definition after_redeem (requester iid : ObjectId) (item : Item.t) (db : Db) : Db :=
  set_users (alter (User.inc_points (Item.points item)) (Item.user_id item))
    (set_users (alter (User.inc_points (- Item.points item)) requester)
       (set_items (alter (Item.set_status Item.swapped) iid) db)).

(** The store after the writes of an acceptance, in program order. *)
Definition after_accept (id userId : ObjectId) (s : Swap.t) (item : Item.t) (db : Db) : Db :=
  let award := pointsToAward (Item.points item) in
  set_activities
    (λ l, (l ++ [Activity.new userId "swap_completed"
                   ("Accepted swap for " +:+ Item.title item) award
                   (Some (Swap.item_id s))])%list)
    (set_activities
       (λ l, (l ++ [Activity.new (Swap.requester_id s) "swap_completed"
                      ("Successfully swapped " +:+ Item.title item) award
                      (Some (Swap.item_id s))])%list)
       (set_users (alter (User.inc_points award) userId)
          (set_users (alter (User.inc_points award) (Swap.requester_id s))
             (set_items (alter (Item.set_status Item.swapped) (Swap.item_id s))
                (set_swaps (alter (Swap.set_status Swap.completed) id) db))))).

(** The level that [updateLevel] derives from a balance. *)
Definition derived_level (points : Z) : string :=
  User.level (User.updateLevel (User.mk points "Newcomer")).

(** ** Scenarios

    User 1 owns item 10, a coat; users 2 and 3 request it. *)

Definition coat (points : Z) (st : Item.Status) : Item.t :=
  Item.mk 1%N "Coat" points st.

Definition store (owner_points requester_points item_points : Z)
    (old : gmap N Swap.t) : Db :=
  mkDb (<[1%N := User.mk owner_points "Newcomer"]>
          (<[2%N := User.mk requester_points "Newcomer"]>
             (<[3%N := User.mk 0 "Newcomer"]> ∅)))
       (<[10%N := coat item_points Item.available]> ∅)
       old [].

Definition offer (points_offered : Z) : CreateBody :=
  mkBody (Some 10%N) None (Some points_offered) (Some "I would love this coat").

(** Scenarios A and B: a coat valued 150, an offer of 150 points. *)
Definition scenario_A : Db := store 0 200 150 ∅.
Definition scenario_B : Db := store 0 100 150 ∅.

(** Scenario C: a coat valued 200 and a pending request of user 2. *)
Definition request_of (requester : ObjectId) (st : Swap.Status) : Swap.t :=
  Swap.mk requester 10%N None st 0 "".

Definition scenario_C : Db := store 90 0 200 {[ 0%N := request_of 2%N Swap.pending ]}.

(** A coat that two users have requested, and then the owner accepting
    both requests in turn. *)
Definition two_requests : Db :=
  (create 3%N (offer 0) (create 2%N (offer 0) (store 0 0 200 ∅)).1).1.
Definition first_accepted : Db := (accept 0%N 1%N two_requests).1.
Definition second_accepted : Db := (accept 1%N 1%N first_accepted).1.

(** A free coat, and user 2 after an admin took 5 points from their empty
    balance. *)
Definition free_coat_in_debt : Db :=
  (adjust_points 2%N (Some (-5)) "penalty" (store 0 0 0 ∅)).1.

(** A request of user 2 that the owner declined earlier. *)
Definition scenario_declined : Db :=
  store 0 0 200 {[ 0%N := request_of 2%N Swap.declined ]}.

(** ** routes/swaps.js: the stores the handlers leave *)

(** The swap document [create] builds from a request. *)
Definition swap_doc (requester iid : ObjectId) (req : CreateBody) : Swap.t :=
  Swap.new requester iid (body_offered_item_id req)
    (js_or_zero (body_points_offered req)) (js_or_empty (body_message req)).

(** After an ordinary request: the swap document under a fresh id, then the
    activity record. *)
Definition after_request (requester iid : ObjectId) (req : CreateBody)
    (item : Item.t) (db : Db) : Db :=
  set_activities
    (λ l, (l ++ [Activity.new requester "swap_request"
                   ("Requested swap for " +:+ Item.title item) 0
                   (Some iid)])%list)
    (set_swaps (insert (fresh (dom (swaps db))) (swap_doc requester iid req)) db).

(** After a decline: the status, then the activity record. *)
Definition after_decline (id : ObjectId) (s : Swap.t) (item : Item.t) (db : Db) : Db :=
  set_activities
    (λ l, (l ++ [Activity.new (Swap.requester_id s) "swap_declined"
                   ("Swap request for " +:+ Item.title item +:+ " was declined") 0
                   (Some (Swap.item_id s))])%list)
    (set_swaps (alter (Swap.set_status Swap.declined) id) db).

(** After a cancel: the status only. *)
Definition after_cancel (id : ObjectId) (db : Db) : Db :=
  set_swaps (alter (Swap.set_status Swap.cancelled) id) db.

(** Every way [create] can end. *)
Inductive create_result (db : Db) (requester : ObjectId) (req : CreateBody)
    : Db * Response → Prop :=
  | create_refused r :
      is_error r = true →
      create_result db requester req (db, r)
  | create_requested iid item :
      eligible db requester req iid item →
      js_ge (body_points_offered req) (Item.points item) = false →
      Swap.validate (swap_doc requester iid req) = true →
      create_result db requester req
        (after_request requester iid req item db,
         Success 201 (Some (fresh (dom (swaps db))))
           "Swap request created successfully")
  | create_redeemed iid item u :
      eligible db requester req iid item →
      js_ge (body_points_offered req) (Item.points item) = true →
      users db !! requester = Some u → Item.points item ≤ User.points u →
      create_result db requester req
        (if Swap.validate (swap_doc requester iid req)
         then set_swaps (insert (fresh (dom (swaps db))) (swap_doc requester iid req))
                (after_redeem requester iid item db)
         else after_redeem requester iid item db,
         Failure 500 "Failed to create swap request" None).

(** Every way [accept], [decline] and [cancel] can end. *)
Inductive accept_result (db : Db) (id userId : ObjectId) : Db * Response → Prop :=
  | accept_refused r :
      is_error r = true → accept_result db id userId (db, r)
  | accept_settled s item :
      swaps db !! id = Some s → items db !! Swap.item_id s = Some item →
      Item.user_id item = userId → Swap.status s = Swap.pending →
      accept_result db id userId
        (after_accept id userId s item db,
         Success 200 None "Swap request accepted successfully").

Inductive decline_result (db : Db) (id userId : ObjectId) : Db * Response → Prop :=
  | decline_refused r :
      is_error r = true → decline_result db id userId (db, r)
  | decline_done s item :
      swaps db !! id = Some s → items db !! Swap.item_id s = Some item →
      Item.user_id item = userId → Swap.status s = Swap.pending →
      decline_result db id userId
        (after_decline id s item db,
         Success 200 None "Swap request declined successfully").

Inductive cancel_result (db : Db) (id userId : ObjectId) : Db * Response → Prop :=
  | cancel_refused r :
      is_error r = true → cancel_result db id userId (db, r)
  | cancel_done s :
      swaps db !! id = Some s →
      Swap.requester_id s = userId → Swap.status s = Swap.pending →
      cancel_result db id userId
        (after_cancel id db,
         Success 200 None "Swap request cancelled successfully").

(** The four requests a client can send to the swap routes. *)
Inductive SwapCall : Type :=
  | CallCreate (requester : ObjectId) (req : CreateBody)
  | CallAccept (id userId : ObjectId)
  | CallDecline (id userId : ObjectId)
  | CallCancel (id userId : ObjectId).

Definition run_call (c : SwapCall) : Db → Db * Response :=
  match c with
  | CallCreate requester req => create requester req
  | CallAccept id userId => accept id userId
  | CallDecline id userId => decline id userId
  | CallCancel id userId => cancel id userId
  end.

(** ** Invariants of the swap routes *)

(** A requester has at most one pending swap on an item. *)
Definition unique_pending (db : Db) : Prop :=
  ∀ k1 k2 s1 s2,
    swaps db !! k1 = Some s1 → swaps db !! k2 = Some s2 →
    Swap.requester_id s1 = Swap.requester_id s2 →
    Swap.item_id s1 = Swap.item_id s2 →
    Swap.status s1 = Swap.pending → Swap.status s2 = Swap.pending →
    k1 = k2.

(** The points the activity records of a list attribute to a user. *)
Definition points_logged (uid : ObjectId) (l : list Activity.t) : Z :=
  foldr (λ a acc, if bool_decide (Activity.user_id a = uid)
                  then Activity.points a + acc else acc) 0 l.

(** A sequence of requests, served one after the other. *)
Definition run_calls (cs : list SwapCall) (db : Db) : Db :=
  foldl (λ d c, (run_call c d).1) db cs.

(** ** routes/users.js: [getUserStats]

    [Activity.aggregate([{ $match: { user_id } }, { $group: { _id: null,
    total_points_earned: { $sum: '$points' } } }])], read as
    [pointsResult[0]?.total_points_earned || 0]. *)
Definition totalPointsEarned (userId : ObjectId) (db : Db) : Z :=
  points_logged userId (activities db).

(** ** Further scenarios *)

(** User 2 also lists a scarf (item 11), which is still pending approval,
    and user 3 lists a hat (item 12). *)
Definition wardrobe : Db :=
  set_items (λ m, <[11%N := Item.mk 2%N "Scarf" 40 Item.pending]>
                    (<[12%N := Item.mk 3%N "Hat" 30 Item.available]> m))
    (store 0 500 150 ∅).

Definition offer_with (offered : ObjectId) (points_offered : Z) : CreateBody :=
  mkBody (Some 10%N) (Some offered) (Some points_offered) None.

(** ** routes/items.js: [router.delete('/:id')], delete item (owner only) *)

Definition Item_findByIdAndDelete (id : ObjectId) : M unit :=
  modify (set_items (delete id)).

Definition delete_item_body (id userId : ObjectId) : M Response :=
  found ← Item_findById id;
  item ← unless_some found (Failure 404 "Item not found" None);
  when_respond (negb (bool_decide (Item.user_id item = userId)))
    (Failure 403 "You can only delete your own items" None);;
  Item_findByIdAndDelete id;;
  mret (Success 200 None "Item deleted successfully").

Definition delete_item (id userId : ObjectId) : Db → Db * Response :=
  try_catch (delete_item_body id userId) "Failed to delete item".

(** ** routes/admin.js: item moderation *)

(** The double quote character of the template strings. *)
Definition dquote : string := String (Ascii.ascii_of_nat 34) EmptyString.

(** The [enum] of [itemSchema.status]. *)
Definition Item_status_of_string (s : string) : option Item.Status :=
  if String.eqb s "pending" then Some Item.pending
  else if String.eqb s "available" then Some Item.available
  else if String.eqb s "swapped" then Some Item.swapped
  else if String.eqb s "removed" then Some Item.removed
  else None.

(** [item.status = st; await item.save()] on a document read from the
    store: the save is rejected when [st] is off the enum list. *)
Definition Item_save_status (id : ObjectId) (st : string) : M unit := λ db,
  match Item_status_of_string st with
  | Some v => (set_items (alter (Item.set_status v) id) db, Value tt)
  | None => (db, Thrown)
  end.

(** [router.put('/items/:id/approve')]. *)
Definition approve_item_body (id : ObjectId) : M Response :=
  found ← Item_findById id;
  item ← unless_some found (Failure 404 "Item not found" None);
  when_respond (negb (bool_decide (Item.status item = Item.pending)))
    (Failure 400 "Item is not pending approval" None);;
  Item_save_status id "available";;
  Activity_save
    (Activity.new (Item.user_id item) "item_approved"
       ("Item " +:+ dquote +:+ Item.title item +:+ dquote +:+ " approved by admin")
       10 None);;
  mret (Success 200 None "Item approved successfully").

Definition approve_item (id : ObjectId) : Db → Db * Response :=
  try_catch (approve_item_body id) "Failed to approve item".

(** [router.put('/items/:id/reject')]; the rejection reason is assigned
    with the status and goes through the same [save]. *)
Definition reject_item_body (id : ObjectId) (reason : string) : M Response :=
  found ← Item_findById id;
  item ← unless_some found (Failure 404 "Item not found" None);
  when_respond (negb (bool_decide (Item.status item = Item.pending)))
    (Failure 400 "Item is not pending approval" None);;
  Item_save_status id "rejected";;
  Activity_save
    (Activity.new (Item.user_id item) "item_rejected"
       ("Item " +:+ dquote +:+ Item.title item +:+ dquote +:+
        " rejected by admin: " +:+ reason)
       (-5) None);;
  mret (Success 200 None "Item rejected successfully").

Definition reject_item (id : ObjectId) (reason : string) : Db → Db * Response :=
  try_catch (reject_item_body id reason) "Failed to reject item".

(** [router.delete('/items/:id')]: the activity record is saved before the
    item is deleted. *)
Definition remove_item_body (id : ObjectId) (reason : string) : M Response :=
  found ← Item_findById id;
  item ← unless_some found (Failure 404 "Item not found" None);
  Activity_save
    (Activity.new (Item.user_id item) "item_removed"
       ("Item " +:+ dquote +:+ Item.title item +:+ dquote +:+
        " removed by admin: " +:+ reason)
       (-10) None);;
  Item_findByIdAndDelete id;;
  mret (Success 200 None "Item removed successfully").

Definition remove_item (id : ObjectId) (reason : string) : Db → Db * Response :=
  try_catch (remove_item_body id reason) "Failed to remove item".

(** ** routes/auth.js: rate limiting of login attempts

    [loginAttempts] is a [Map] from email to the array of the times (in
    milliseconds) of the recorded attempts; [now] is [Date.now()]. *)

Definition recent (now : Z) (attempts : list Z) : list Z :=
  List.filter (λ time, now - time <? 15 * 60 * 1000) attempts.

(** [isRateLimited]: the answer and the map it leaves. *)
Definition isRateLimited (email : string) (now : Z) (loginAttempts : gmap string (list Z))
    : bool * gmap string (list Z) :=
  match loginAttempts !! email with
  | None => (false, loginAttempts)
  | Some attempts =>
      let recentAttempts := recent now attempts in
      if (5 <=? length recentAttempts)%nat then (true, loginAttempts)
      else (false, <[email := recentAttempts]> loginAttempts)
  end.

(** [recordLoginAttempt]. *)
Definition recordLoginAttempt (email : string) (now : Z)
    (loginAttempts : gmap string (list Z)) : gmap string (list Z) :=
  <[email := (default [] (loginAttempts !! email) ++ [now])%list]> loginAttempts.

(** Attempts recorded one after the other, at the given times. *)
Definition recordLoginAttempts (email : string) (times : list Z)
    (loginAttempts : gmap string (list Z)) : gmap string (list Z) :=
  foldl (λ m t, recordLoginAttempt email t m) loginAttempts times.

(** ** models/User.js: account lockout

    The two fields of the user document that the lockout methods read and
    write; times in milliseconds, [now] is the current date. *)

Module Lockout.

Record t : Type := mk {
  failed_login_attempts : Z;        (* default: 0 *)
  lockout_until         : option Z  (* a Date, or undefined *)
}.

(** [userSchema.methods.handleFailedLogin]. *)
Definition handleFailedLogin (now : Z) (u : t) : t :=
  let attempts := failed_login_attempts u + 1 in
  if 5 <=? attempts
  then mk attempts (Some (now + 15 * 60 * 1000))
  else mk attempts (lockout_until u).

(** [userSchema.methods.resetFailedLoginAttempts]. *)
Definition resetFailedLoginAttempts (u : t) : t := mk 0 None.

(** [userSchema.methods.isLocked]. *)
Definition isLocked (now : Z) (u : t) : bool :=
  match lockout_until u with
  | Some until => now <? until
  | None => false
  end.

(** Failed logins one after the other, at the given times. *)
Definition failed_logins (times : list Z) (u : t) : t :=
  foldl (λ v now, handleFailedLogin now v) u times.

End Lockout.

(** * Properties *)

(** ** The monad *)

Ltac unfold_M :=
  unfold mbind, M_bind, mret, M_ret, respond, throw, gets, modify,
         when_respond, unless_some, deref.

(** Run the handler up to the next read that needs a hypothesis. *)
Ltac run := repeat (progress (unfold_M; simpl)).

Lemma existsb_pending_false db requester iid :
  no_pending_swap db requester iid →
  existsb (λ kv, is_pending_for requester iid kv.2) (map_to_list (swaps db)) = false.
Proof.
  intros Hno. apply not_true_is_false. intros Hex.
  apply existsb_exists in Hex as [[k s] [Hin Hp]].
  apply list_elem_of_In, elem_of_map_to_list in Hin.
  unfold is_pending_for in Hp. simpl in Hp.
  apply andb_true_iff in Hp as [Hp Hst].
  apply andb_true_iff in Hp as [Hr Hi].
  apply bool_decide_eq_true in Hr, Hi, Hst.
  exact (Hno k s Hin Hr Hi Hst).
Qed.

Lemma validate_offered_ok db requester offered :
  offered_ok db requester offered →
  validate_offered requester offered db = (db, Value tt).
Proof.
  destruct offered as [oid|]; simpl; [|done].
  intros (o & Ho & Hu & Hs).
  unfold validate_offered, Item_findById. run. rewrite Ho. run.
  rewrite !bool_decide_eq_true_2 by done. done.
Qed.

(** An eligible request passes the checks, which return the target item. *)
Lemma create_checks_pass db requester req iid item :
  eligible db requester req iid item →
  create_checks requester req db = (db, Value (iid, item, Item.user_id item)).
Proof.
  intros [Hid Hit Hav [o Ho] Hne Hdup Hoff].
  unfold create_checks, Item_findById, populate_user, Swap_exists_pending.
  run. rewrite Hid. run. rewrite Hit, Ho. run.
  rewrite (bool_decide_eq_true_2 _ Hav). run.
  rewrite (bool_decide_eq_false_2 _ Hne). run.
  rewrite (existsb_pending_false _ _ _ Hdup). run.
  rewrite (validate_offered_ok _ _ _ Hoff). done.
Qed.

(** ** The ledger *)

Lemma sum_points_insert (m : gmap N User.t) k u :
  m !! k = None → sum_points (<[k:=u]> m) = User.points u + sum_points m.
Proof.
  intros Hk. unfold sum_points.
  apply (map_fold_insert_L (λ _ (v : User.t) acc, User.points v + acc));
    [intros; lia | exact Hk].
Qed.

Lemma sum_points_delete (m : gmap N User.t) k u :
  m !! k = Some u → sum_points m = User.points u + sum_points (delete k m).
Proof.
  intros Hk. rewrite <- (insert_delete_id m k u Hk) at 1.
  apply sum_points_insert, lookup_delete_eq.
Qed.

(** [$inc] by [d] on an existing user moves the total by [d]. *)
Lemma sum_points_inc (m : gmap N User.t) k u d :
  m !! k = Some u →
  sum_points (alter (User.inc_points d) k m) = sum_points m + d.
Proof.
  intros Hk. rewrite (alter_alt_Some _ _ _ _ Hk), <- insert_delete_eq.
  rewrite sum_points_insert by apply lookup_delete_eq.
  rewrite (sum_points_delete m k u Hk). simpl. lia.
Qed.

Lemma inc_points_zero (m : gmap N User.t) k :
  alter (User.inc_points 0) k m = m.
Proof.
  apply alter_id. intros [p l] _. unfold User.inc_points. simpl.
  by rewrite Z.add_0_r.
Qed.

(** On the valuations the item schema allows (min: 0, max: 10000) the
    double computation of the award is the exact quotient by ten: checked on
    each of the 10001 values. *)
Lemma award_is_quotient_upto_spec n :
  award_is_quotient_upto n = true →
  ∀ k, (k ≤ n)%nat → pointsToAward (Z.of_nat k) = Z.of_nat k / 10.
Proof.
  induction n as [|n IH]; intros H k Hk.
  - assert (k = 0%nat) as -> by lia.
    apply andb_true_iff in H as [H _]. by apply Z.eqb_eq.
  - apply andb_true_iff in H as [Hn H].
    destruct (decide (k = S n)) as [->|Hne]; [by apply Z.eqb_eq|].
    apply IH; [done|lia].
Qed.

Lemma award_is_quotient_on_schema_range :
  award_is_quotient_upto (Z.to_nat 10000) = true.
Proof. vm_compute. reflexivity. Qed.

Lemma pointsToAward_schema v :
  0 ≤ v ≤ 10000 → pointsToAward v = v / 10.
Proof.
  intros Hv. rewrite <- (Z2Nat.id v) by lia.
  apply (award_is_quotient_upto_spec _ award_is_quotient_on_schema_range).
  apply Z2Nat.inj_le; lia.
Qed.

(** The quotient by ten is the floor of a tenth. *)
Lemma quotient_floor v : 10 * (v / 10) ≤ v < 10 * (v / 10) + 10.
Proof. pose proof (Z.div_mod v 10). pose proof (Z.mod_pos_bound v 10). lia. Qed.

(** Outside the schema's range the double product can round up to the next
    integer. *)
Lemma pointsToAward_large :
  pointsToAward 8999999999999999 = 900000000000000 ∧
  8999999999999999 / 10 = 899999999999999.
Proof. vm_compute. split; reflexivity. Qed.

(** ** Validators *)

Lemma trim_nonempty c s :
  is_space c = false → String.eqb (trim (String c s)) "" = false.
Proof.
  intros Hc. unfold trim. simpl. rewrite Hc. simpl.
  destruct (trim_end s); by rewrite ?Hc.
Qed.

(** A description that starts with a letter passes [required]. *)
Lemma trim_prefixed c s t :
  is_space c = false → String.eqb (trim (String c s +:+ t)) "" = false.
Proof.
  intros Hc. change (String c s +:+ t) with (String c (s +:+ t)).
  by apply trim_nonempty.
Qed.

(** ** What [create] does to the store *)

Section Create.

Variables (db : Db) (requester : ObjectId) (req : CreateBody).
Variables (iid : ObjectId) (item : Item.t).
Hypothesis Hel : eligible db requester req iid item.

Let V := Item.points item.
Let owner := Item.user_id item.
Let doc := Swap.new requester iid (body_offered_item_id req)
             (js_or_zero (body_points_offered req))
             (js_or_empty (body_message req)).
Let redeemed := after_redeem requester iid item db.

(** Redemption: the offer reaches the valuation and the balance covers
    it.  The three writes are made and the swap document is saved; the
    activity record is then rejected by the schema and the handler ends
    in its [catch] block. *)
Lemma create_redemption u :
  js_ge (body_points_offered req) V = true →
  users db !! requester = Some u → V ≤ User.points u →
  create requester req db =
    (if Swap.validate doc
     then set_swaps (insert (fresh (dom (swaps db))) doc) redeemed
     else redeemed,
     Failure 500 "Failed to create swap request" None).
Proof.
  intros Hge Hu Hbal.
  unfold create, try_catch, create_body. run.
  rewrite (create_checks_pass _ _ _ _ _ Hel).
  unfold create_writes. fold V owner doc. rewrite Hge.
  unfold redeem, User_findById, Item_findByIdAndUpdate_status,
    User_findByIdAndUpdate_inc, Swap_save_new, Activity_save. run.
  rewrite Hu. run. fold V.
  destruct (Z.ltb_spec (User.points u) V) as [Hlt|_]; [lia|]. run.
  fold V owner doc.
  destruct (Swap.validate doc); reflexivity.
Qed.

(** Insufficient balance: nothing is written. *)
Lemma create_insufficient u :
  js_ge (body_points_offered req) V = true →
  users db !! requester = Some u → User.points u < V →
  create requester req db = (db, insufficient_points V (Some u)).
Proof.
  intros Hge Hu Hbal.
  unfold create, try_catch, create_body. run.
  rewrite (create_checks_pass _ _ _ _ _ Hel).
  unfold create_writes. fold V. rewrite Hge.
  unfold redeem, User_findById. run. rewrite Hu. run. fold V.
  destruct (Z.ltb_spec (User.points u) V) as [_|Hge']; [done|lia].
Qed.

(** An ordinary request: one swap document and one activity record. *)
Lemma create_request :
  js_ge (body_points_offered req) V = false →
  Swap.validate doc = true →
  create requester req db =
    (set_activities
       (λ l, (l ++ [Activity.new requester "swap_request"
                      ("Requested swap for " +:+ Item.title item) 0
                      (Some iid)])%list)
       (set_swaps (insert (fresh (dom (swaps db))) doc) db),
     Success 201 (Some (fresh (dom (swaps db))))
       "Swap request created successfully").
Proof.
  intros Hge Hval.
  unfold create, try_catch, create_body. run.
  rewrite (create_checks_pass _ _ _ _ _ Hel).
  unfold create_writes. fold V doc. rewrite Hge.
  unfold Swap_save_new, Activity_save. run. fold doc. rewrite Hval. run.
  unfold Activity.validate, Activity.new. simpl.
  rewrite trim_prefixed by reflexivity. reflexivity.
Qed.

End Create.

(** ** What [accept], [decline] and [cancel] do to the store *)

(** The owner accepts a pending swap: every write is made. *)
Lemma accept_pending db id userId s item :
  swaps db !! id = Some s →
  items db !! Swap.item_id s = Some item →
  Item.user_id item = userId →
  Swap.status s = Swap.pending →
  accept id userId db =
    (after_accept id userId s item db,
     Success 200 None "Swap request accepted successfully").
Proof.
  intros Hs Hi Ho Hp.
  unfold accept, try_catch, accept_body, Swap_findById_populate_item. run.
  rewrite Hs. run. rewrite Hi. run.
  rewrite (bool_decide_eq_true_2 _ Ho), (bool_decide_eq_true_2 _ Hp). run.
  unfold Swap_save_status, Item_findByIdAndUpdate_status,
    User_findByIdAndUpdate_inc, Activity_save, Activity.validate. run.
  rewrite !trim_prefixed by reflexivity. reflexivity.
Qed.

(** Off [pending], each of the three handlers answers with an error and
    writes nothing, whoever calls. *)
Lemma accept_not_pending db id userId s :
  swaps db !! id = Some s → Swap.status s ≠ Swap.pending →
  ∃ r, accept id userId db = (db, r) ∧ is_error r = true.
Proof.
  intros Hs Hp.
  unfold accept, try_catch, accept_body, Swap_findById_populate_item. run.
  rewrite Hs. run.
  destruct (items db !! Swap.item_id s) as [item|]; run; [|eauto].
  destruct (bool_decide (Item.user_id item = userId)); run; [|eauto].
  rewrite (bool_decide_eq_false_2 _ Hp). run. eauto.
Qed.

Lemma decline_not_pending db id userId s :
  swaps db !! id = Some s → Swap.status s ≠ Swap.pending →
  ∃ r, decline id userId db = (db, r) ∧ is_error r = true.
Proof.
  intros Hs Hp.
  unfold decline, try_catch, decline_body, Swap_findById_populate_item. run.
  rewrite Hs. run.
  destruct (items db !! Swap.item_id s) as [item|]; run; [|eauto].
  destruct (bool_decide (Item.user_id item = userId)); run; [|eauto].
  rewrite (bool_decide_eq_false_2 _ Hp). run. eauto.
Qed.

Lemma cancel_not_pending db id userId s :
  swaps db !! id = Some s → Swap.status s ≠ Swap.pending →
  ∃ r, cancel id userId db = (db, r) ∧ is_error r = true.
Proof.
  intros Hs Hp.
  unfold cancel, try_catch, cancel_body, Swap_findById. run.
  rewrite Hs. run.
  destruct (bool_decide (Swap.requester_id s = userId)); run; [|eauto].
  rewrite (bool_decide_eq_false_2 _ Hp). run. eauto.
Qed.

(** The answer the owner and the requester get on a swap that left
    [pending]. *)
Lemma accept_by_owner_not_pending db id s item :
  swaps db !! id = Some s → items db !! Swap.item_id s = Some item →
  Swap.status s ≠ Swap.pending →
  accept id (Item.user_id item) db =
    (db, Failure 400 "Swap request is no longer pending" None).
Proof.
  intros Hs Hi Hp.
  unfold accept, try_catch, accept_body, Swap_findById_populate_item. run.
  rewrite Hs. run. rewrite Hi. run.
  rewrite (bool_decide_eq_true_2 _ eq_refl), (bool_decide_eq_false_2 _ Hp).
  reflexivity.
Qed.

(** ** The checks of [create] only read *)

Lemma validate_offered_reads db requester offered :
  (validate_offered requester offered db).1 = db.
Proof.
  unfold validate_offered, Item_findById. destruct offered as [oid|]; run; [|done].
  destruct (items db !! oid) as [o|]; run; [|done].
  destruct (bool_decide (Item.user_id o = requester)); run; [|done].
  by destruct (bool_decide (Item.status o = Item.available)).
Qed.

Lemma create_checks_reads db requester req :
  (create_checks requester req db).1 = db ∧
  ∀ i it ow, (create_checks requester req db).2 = Value (i, it, ow) →
    body_item_id req = Some i ∧ items db !! i = Some it.
Proof.
  unfold create_checks, Item_findById, populate_user, Swap_exists_pending. run.
  destruct (body_item_id req) as [i0|]; run; [|by split].
  destruct (items db !! i0) as [it0|] eqn:Hit; run; [|by split].
  destruct (bool_decide (Item.status it0 = Item.available)); run;
    [|by destruct (users db !! Item.user_id it0); split].
  destruct (users db !! Item.user_id it0); run; [|by split].
  destruct (bool_decide (Item.user_id it0 = requester)); run; [by split|].
  destruct (existsb _ _); run; [by split|].
  pose proof (validate_offered_reads db requester (body_offered_item_id req)) as Hv.
  destruct (validate_offered requester (body_offered_item_id req) db) as [db' [[]|r|]];
    simpl in *; subst db'; split; try done.
  intros i it ow [= <- <- <-]. done.
Qed.

(** ** Tools for concrete stores *)

Lemma no_pending_swap_check db requester iid :
  existsb (λ kv, is_pending_for requester iid kv.2) (map_to_list (swaps db)) = false →
  no_pending_swap db requester iid.
Proof.
  intros Hex k s Hk Hr Hi Hst.
  assert (existsb (λ kv, is_pending_for requester iid kv.2)
            (map_to_list (swaps db)) = true) as Htrue; [|congruence].
  apply existsb_exists. exists (k, s). split.
  - by apply list_elem_of_In, elem_of_map_to_list.
  - unfold is_pending_for. simpl. by rewrite !bool_decide_eq_true_2.
Qed.

(** Eligibility of a request without offered item, by evaluation. *)
Ltac eligible_by_evaluation :=
  constructor;
  [ reflexivity | vm_compute; reflexivity | reflexivity
  | eexists; vm_compute; reflexivity | discriminate
  | apply no_pending_swap_check; vm_compute; reflexivity | exact I ].

Lemma eligible_scenario_A : eligible scenario_A 2%N (offer 150) 10%N (coat 150 Item.available).
Proof. eligible_by_evaluation. Qed.

Lemma eligible_scenario_B : eligible scenario_B 2%N (offer 150) 10%N (coat 150 Item.available).
Proof. eligible_by_evaluation. Qed.

Lemma eligible_scenario_declined :
  eligible scenario_declined 2%N (offer 0) 10%N (coat 200 Item.available).
Proof. eligible_by_evaluation. Qed.

Lemma eligible_free_coat :
  eligible (store 0 0 0 ∅) 2%N (offer 0) 10%N (coat 0 Item.available).
Proof. eligible_by_evaluation. Qed.

(** ** Settlement *)

(** What the create handler checks about the item holds for every call:
    an item that is not available gets no request and nothing is written. *)
Lemma create_unavailable db requester req iid item :
  body_item_id req = Some iid → items db !! iid = Some item →
  Item.status item ≠ Item.available →
  create requester req db =
    (db, Failure 404 "Item not found or not available" None).
Proof.
  intros Hid Hit Hst.
  unfold create, try_catch, create_body, create_checks, Item_findById,
    populate_user. run.
  rewrite Hid. run. rewrite Hit. run.
  rewrite (bool_decide_eq_false_2 _ Hst).
  by destruct (users db !! Item.user_id item).
Qed.

(** C1.  Once a settlement has set the item to swapped, a later settlement
    attempt is to fail with ItemUnavailable and change nothing.  The accept
    handler never reads the item's status: after the owner accepted the first
    of two pending requests for the coat (200 points), accepting the second
    one succeeds as well, completes that swap and pays the bonus of 20 points
    to the owner and to the second requester once more. *)
Theorem accept_pays_again_on_swapped_item :
  Item.status <$> items first_accepted !! 10%N = Some Item.swapped ∧
  Swap.status <$> swaps first_accepted !! 1%N = Some Swap.pending ∧
  User.points <$> users first_accepted !! 1%N = Some 20 ∧
  User.points <$> users first_accepted !! 3%N = Some 0 ∧
  (accept 1%N 1%N first_accepted).2 =
    Success 200 None "Swap request accepted successfully" ∧
  Swap.status <$> swaps second_accepted !! 1%N = Some Swap.completed ∧
  User.points <$> users second_accepted !! 1%N = Some 40 ∧
  User.points <$> users second_accepted !! 3%N = Some 20.
Proof. vm_compute. repeat split; reflexivity. Qed.

(** C2.  An immediate redemption is to create the swap already completed.
    The handler builds the swap document without a status, so the one
    document a redemption adds is pending, and no completed swap appears. *)
Theorem redemption_leaves_swap_pending db requester req iid item p u :
  eligible db requester req iid item →
  body_points_offered req = Some p → Item.points item ≤ p →
  users db !! requester = Some u → Item.points item ≤ User.points u →
  0 ≤ p → (String.length (trim (js_or_empty (body_message req))) ≤ 500)%nat →
  let db' := (create requester req db).1 in
  let id := fresh (dom (swaps db)) in
  swaps db !! id = None ∧
  Swap.status <$> swaps db' !! id = Some Swap.pending ∧
  ∀ k s, swaps db' !! k = Some s → Swap.status s = Swap.completed →
         swaps db !! k = Some s.
Proof.
  intros Hel Hp Hge Hu Hbal Hp0 Hlen db' id.
  assert (swaps db !! id = None) as Hfresh
    by apply not_elem_of_dom, is_fresh.
  subst db'. rewrite (create_redemption _ _ _ _ _ Hel u); [|by rewrite Hp; simpl; apply Z.leb_le|done|done].
  replace (Swap.validate _) with true; cycle 1.
  { symmetry. unfold Swap.validate, Swap.new. simpl. rewrite Hp. simpl.
    apply andb_true_iff. split; [by apply Z.leb_le | by apply Nat.leb_le]. }
  simpl. fold id. split; [done|]. split; [by rewrite lookup_insert_eq|].
  intros k s Hk Hst. destruct (decide (id = k)) as [<-|Hne].
  - rewrite lookup_insert_eq in Hk. by simplify_eq.
  - by rewrite lookup_insert_ne in Hk.
Qed.

Lemma scenario_A_swap_is_pending :
  let db' := (create 2%N (offer 150) scenario_A).1 in
  let id := fresh (dom (swaps scenario_A)) in
  swaps scenario_A !! id = None ∧
  Swap.status <$> swaps db' !! id = Some Swap.pending ∧
  ∀ k s, swaps db' !! k = Some s → Swap.status s = Swap.completed →
         swaps scenario_A !! k = Some s.
Proof.
  apply (redemption_leaves_swap_pending scenario_A 2%N (offer 150) 10%N
           (coat 150 Item.available) 150 (User.mk 200 "Newcomer")).
  - exact eligible_scenario_A.
  - reflexivity.
  - simpl. lia.
  - vm_compute. reflexivity.
  - simpl. lia.
  - lia.
  - vm_compute. lia.
Defined.

(** C3.  A redemption is to append one activity of type point_redemption.
    That type is not on the enum list of the activity schema: the save is
    rejected after the writes of the redemption, the log stays as it was and
    the request is answered with status 500. *)
Theorem redemption_appends_no_activity db requester req iid item p u :
  eligible db requester req iid item →
  body_points_offered req = Some p → Item.points item ≤ p →
  users db !! requester = Some u → Item.points item ≤ User.points u →
  activities (create requester req db).1 = activities db ∧
  (create requester req db).2 = Failure 500 "Failed to create swap request" None ∧
  Activity.validate
    (Activity.new requester "point_redemption"
       ("Redeemed " +:+ Item.title item +:+ " with " +:+
        pretty (Item.points item) +:+ " points")
       (- Item.points item) (Some iid)) = false.
Proof.
  intros Hel Hp Hge Hu Hbal.
  rewrite (create_redemption _ _ _ _ _ Hel u); [|by rewrite Hp; simpl; apply Z.leb_le|done|done].
  split; [by destruct (Swap.validate _)|]. split; reflexivity.
Qed.

Lemma scenario_A_log_is_unchanged :
  activities (create 2%N (offer 150) scenario_A).1 = activities scenario_A ∧
  (create 2%N (offer 150) scenario_A).2 =
    Failure 500 "Failed to create swap request" None ∧
  Activity.validate
    (Activity.new 2%N "point_redemption"
       ("Redeemed " +:+ "Coat" +:+ " with " +:+ pretty 150 +:+ " points")
       (- 150) (Some 10%N)) = false.
Proof.
  apply (redemption_appends_no_activity scenario_A 2%N (offer 150) 10%N
           (coat 150 Item.available) 150 (User.mk 200 "Newcomer")).
  - exact eligible_scenario_A.
  - reflexivity.
  - simpl. lia.
  - vm_compute. reflexivity.
  - simpl. lia.
Defined.

(** ** Levels *)

(** The admin route re-derives the level of the user whose balance it
    changes, before it writes the user back. *)
Lemma adjust_points_rederives_level db id u change reason :
  users db !! id = Some u →
  users (adjust_points id (Some change) reason db).1 !! id =
    Some (User.mk (User.points u + change) (derived_level (User.points u + change))).
Proof.
  intros Hu.
  unfold adjust_points, try_catch, adjust_points_body, User_findById,
    User_save, Activity_save. run.
  rewrite Hu. run. unfold derived_level, User.updateLevel. simpl.
  destruct (1000 <=? _); [|destruct (500 <=? _); [|destruct (100 <=? _)]];
    simpl; by rewrite lookup_insert_eq.
Qed.

(** The swap routes change balances with [$inc] only: every level stays
    what it was, after a redemption and after an acceptance. *)
Lemma inc_points_keeps_level (m : gmap N User.t) k d j :
  User.level <$> alter (User.inc_points d) k m !! j = User.level <$> m !! j.
Proof.
  destruct (decide (k = j)) as [->|Hne].
  - rewrite lookup_alter_eq. by destruct (m !! j).
  - by rewrite lookup_alter_ne.
Qed.

Lemma after_redeem_keeps_levels db requester iid item j :
  User.level <$> users (after_redeem requester iid item db) !! j =
  User.level <$> users db !! j.
Proof. simpl. by rewrite !inc_points_keeps_level. Qed.

Lemma after_accept_keeps_levels db id userId s item j :
  User.level <$> users (after_accept id userId s item db) !! j =
  User.level <$> users db !! j.
Proof. simpl. by rewrite !inc_points_keeps_level. Qed.

(** C4.  The level is to be the tier derived from the balance after every
    settlement.  Neither settlement calls updateLevel.  Redemption
    (scenario A): the owner goes from 0 to 150 points and stays Newcomer.
    Acceptance (scenario C): the owner goes from 90 to 110 points and stays
    Newcomer.  The tier derived from either balance is Fashion Enthusiast. *)
Theorem settlement_leaves_level_stale :
  users scenario_A !! 1%N = Some (User.mk 0 (derived_level 0)) ∧
  users (create 2%N (offer 150) scenario_A).1 !! 1%N = Some (User.mk 150 "Newcomer") ∧
  derived_level 150 = "Fashion Enthusiast" ∧
  users scenario_C !! 1%N = Some (User.mk 90 (derived_level 90)) ∧
  (accept 0%N 1%N scenario_C).2 =
    Success 200 None "Swap request accepted successfully" ∧
  users (accept 0%N 1%N scenario_C).1 !! 1%N = Some (User.mk 110 "Newcomer") ∧
  derived_level 110 = "Fashion Enthusiast".
Proof. vm_compute. repeat split; reflexivity. Qed.

(** ** Balances *)





(** ** Errors *)

(** The redemption block writes nothing when the balance is short. *)
Lemma redeem_insufficient db requester iid owner item u :
  users db !! requester = Some u → User.points u < Item.points item →
  redeem requester iid owner item db =
    (db, Responded (insufficient_points (Item.points item) (Some u))).
Proof.
  intros Hu Hlt. unfold redeem, User_findById. run. rewrite Hu. run.
  destruct (Z.ltb_spec (User.points u) (Item.points item)); [done|lia].
Qed.

Lemma insufficient_points_message required u :
  insufficient_points required (Some u) =
    Failure 400 "Insufficient points"
      (Some ("You need " +:+ pretty required +:+
             " points to redeem this item. You have " +:+
             pretty (User.points u) +:+ " points.")).
Proof.
  unfold insufficient_points.
  destruct (Z.eqb_spec (User.points u) 0) as [->|]; reflexivity.
Qed.

(** C7.  A create call whose offer reaches the valuation of the target
    item while the requester holds less ends in an error and writes nothing
    (no item, balance, swap or activity changes); when the checks that come
    before pass, the error is Insufficient points (status 400) and its message
    gives the required amount and the requester's balance. *)
Theorem insufficient_points_changes_nothing db requester req iid item p u :
  body_item_id req = Some iid → items db !! iid = Some item →
  body_points_offered req = Some p → Item.points item ≤ p →
  users db !! requester = Some u → User.points u < Item.points item →
  (create requester req db).1 = db ∧
  is_error (create requester req db).2 = true ∧
  (eligible db requester req iid item →
   (create requester req db).2 =
     Failure 400 "Insufficient points"
       (Some ("You need " +:+ pretty (Item.points item) +:+
              " points to redeem this item. You have " +:+
              pretty (User.points u) +:+ " points."))).
Proof.
  intros Hid Hit Hp Hge Hu Hlt.
  assert (js_ge (body_points_offered req) (Item.points item) = true) as Hjs
    by (rewrite Hp; simpl; by apply Z.leb_le).
  split; [|split].
  - unfold create, try_catch, create_body. run.
    destruct (create_checks_reads db requester req) as [Hdb Hval].
    destruct (create_checks requester req db) as [db1 [[[i it] ow]|r|]];
      simpl in *; subst db1; try done.
    destruct (Hval i it ow eq_refl) as [Hi Hit']. simplify_eq.
    unfold create_writes. rewrite Hjs. run.
    by rewrite (redeem_insufficient _ _ _ _ _ u).
  - unfold create, try_catch, create_body. run.
    destruct (create_checks_reads db requester req) as [Hdb Hval].
    destruct (create_checks requester req db) as [db1 [[[i it] ow]|r|]] eqn:Hch;
      simpl in *; subst db1; try done.
    + destruct (Hval i it ow eq_refl) as [Hi Hit']. simplify_eq.
      unfold create_writes. rewrite Hjs. run.
      by rewrite (redeem_insufficient _ _ _ _ _ u).
    + revert Hch. clear.
      unfold create_checks, Item_findById, populate_user, Swap_exists_pending,
        validate_offered. run.
      repeat (case_match; run; try done); intros; simplify_eq; done.
  - intros Hel. rewrite (create_insufficient _ _ _ _ _ Hel u Hjs Hu Hlt).
    apply insufficient_points_message.
Qed.

Lemma scenario_B_is_refused :
  (create 2%N (offer 150) scenario_B).1 = scenario_B ∧
  is_error (create 2%N (offer 150) scenario_B).2 = true ∧
  (eligible scenario_B 2%N (offer 150) 10%N (coat 150 Item.available) →
   (create 2%N (offer 150) scenario_B).2 =
     Failure 400 "Insufficient points"
       (Some ("You need " +:+ pretty 150 +:+
              " points to redeem this item. You have " +:+
              pretty 100 +:+ " points."))).
Proof.
  apply (insufficient_points_changes_nothing scenario_B 2%N (offer 150) 10%N
           (coat 150 Item.available) 150 (User.mk 100 "Newcomer")).
  - reflexivity.
  - vm_compute. reflexivity.
  - reflexivity.
  - simpl. lia.
  - vm_compute. reflexivity.
  - simpl. lia.
Defined.

(** ** The swap state machine *)

(** C8.  A swap that left pending is frozen: on a swap whose status is
    completed, declined or cancelled, accept, decline and cancel each answer
    with an error and leave the whole store (the swap, the item, every
    balance, the activity log) as it was, whoever the acting user is, so in
    particular for the item owner and for the requester. *)
Theorem terminal_swap_is_frozen db id userId s :
  swaps db !! id = Some s →
  Swap.status s = Swap.completed ∨ Swap.status s = Swap.declined ∨
    Swap.status s = Swap.cancelled →
  ((accept id userId db).1 = db ∧ is_error (accept id userId db).2 = true) ∧
  ((decline id userId db).1 = db ∧ is_error (decline id userId db).2 = true) ∧
  ((cancel id userId db).1 = db ∧ is_error (cancel id userId db).2 = true).
Proof.
  intros Hs Hst.
  assert (Swap.status s ≠ Swap.pending) as Hp
    by (destruct Hst as [-> | [-> | ->]]; discriminate).
  destruct (accept_not_pending db id userId s Hs Hp) as (r1 & -> & ?).
  destruct (decline_not_pending db id userId s Hs Hp) as (r2 & -> & ?).
  destruct (cancel_not_pending db id userId s Hs Hp) as (r3 & -> & ?).
  done.
Qed.

Lemma declined_swap_stays_declined :
  ((accept 0%N 1%N scenario_declined).1 = scenario_declined ∧
   is_error (accept 0%N 1%N scenario_declined).2 = true) ∧
  ((decline 0%N 1%N scenario_declined).1 = scenario_declined ∧
   is_error (decline 0%N 1%N scenario_declined).2 = true) ∧
  ((cancel 0%N 1%N scenario_declined).1 = scenario_declined ∧
   is_error (cancel 0%N 1%N scenario_declined).2 = true).
Proof.
  apply (terminal_swap_is_frozen scenario_declined 0%N 1%N
           (request_of 2%N Swap.declined)).
  - vm_compute. reflexivity.
  - right. left. reflexivity.
Defined.

(** C9.  The duplicate guard of create only looks at pending swaps.  When
    an earlier swap of the requester on the item is declined or cancelled and
    none of theirs on it is pending, a new request for the still available
    item (checks passed, offer below the valuation and not negative, message
    within 500 characters) succeeds with status 201: a new pending swap is
    stored under a fresh id and the earlier swap stays as it was. *)
Theorem create_after_declined_or_cancelled db requester req iid item k0 s0 :
  swaps db !! k0 = Some s0 →
  Swap.requester_id s0 = requester → Swap.item_id s0 = iid →
  Swap.status s0 = Swap.declined ∨ Swap.status s0 = Swap.cancelled →
  eligible db requester req iid item →
  js_ge (body_points_offered req) (Item.points item) = false →
  0 ≤ js_or_zero (body_points_offered req) →
  (String.length (trim (js_or_empty (body_message req))) ≤ 500)%nat →
  let db' := (create requester req db).1 in
  ∃ id,
    (create requester req db).2 =
      Success 201 (Some id) "Swap request created successfully" ∧
    swaps db !! id = None ∧
    (∃ s, swaps db' !! id = Some s ∧ Swap.status s = Swap.pending ∧
          Swap.requester_id s = requester ∧ Swap.item_id s = iid) ∧
    swaps db' !! k0 = Some s0.
Proof.
  intros Hk0 Hr0 Hi0 Hst0 Hel Hjs Hpts Hlen db'. subst db'.
  rewrite (create_request _ _ _ _ _ Hel Hjs); cycle 1.
  { unfold Swap.validate, Swap.new. simpl.
    apply andb_true_iff. split; [by apply Z.leb_le | by apply Nat.leb_le]. }
  simpl. exists (fresh (dom (swaps db))).
  assert (swaps db !! fresh (dom (swaps db)) = None) as Hfresh
    by apply not_elem_of_dom, is_fresh.
  split; [done|]. split; [done|]. split.
  - eexists. rewrite lookup_insert_eq. done.
  - rewrite lookup_insert_ne; [done|]. intros Heq. congruence.
Qed.

Lemma request_again_after_decline :
  let db' := (create 2%N (offer 0) scenario_declined).1 in
  ∃ id,
    (create 2%N (offer 0) scenario_declined).2 =
      Success 201 (Some id) "Swap request created successfully" ∧
    swaps scenario_declined !! id = None ∧
    (∃ s, swaps db' !! id = Some s ∧ Swap.status s = Swap.pending ∧
          Swap.requester_id s = 2%N ∧ Swap.item_id s = 10%N) ∧
    swaps db' !! 0%N = Some (request_of 2%N Swap.declined).
Proof.
  apply (create_after_declined_or_cancelled scenario_declined 2%N (offer 0) 10%N
           (coat 200 Item.available) 0%N (request_of 2%N Swap.declined)).
  - vm_compute. reflexivity.
  - reflexivity.
  - reflexivity.
  - left. reflexivity.
  - exact eligible_scenario_declined.
  - reflexivity.
  - simpl. lia.
  - vm_compute. lia.
Defined.




(** * Further properties of the routes *)

(** ** Every way the handlers can end *)

Lemma validate_offered_value db requester offered db' :
  validate_offered requester offered db = (db', Value tt) →
  offered_ok db requester offered.
Proof.
  unfold validate_offered, Item_findById. destruct offered as [oid|]; run; [|done].
  destruct (items db !! oid) as [o|] eqn:Ho; run; [|done].
  destruct (decide (Item.user_id o = requester)) as [Hu|Hu];
    [rewrite (bool_decide_eq_true_2 _ Hu)|rewrite (bool_decide_eq_false_2 _ Hu)];
    run; [|done].
  destruct (decide (Item.status o = Item.available)) as [Hs|Hs];
    [rewrite (bool_decide_eq_true_2 _ Hs)|rewrite (bool_decide_eq_false_2 _ Hs)];
    run; [|done].
  intros _. by exists o.
Qed.

Lemma validate_offered_error db requester offered r :
  (validate_offered requester offered db).2 = Responded r → is_error r = true.
Proof.
  unfold validate_offered, Item_findById. destruct offered as [oid|]; run; [|done].
  destruct (items db !! oid) as [o|]; run; [|by intros [= <-]].
  destruct (bool_decide (Item.user_id o = requester)); run; [|by intros [= <-]].
  destruct (bool_decide (Item.status o = Item.available)); run;
    [done|by intros [= <-]].
Qed.

(** The checks of [create] write nothing; they pass exactly on eligible
    requests and every answer they give is an error. *)
Lemma create_checks_spec db requester req :
  (create_checks requester req db).1 = db ∧
  match (create_checks requester req db).2 with
  | Value (i, it, ow) => eligible db requester req i it ∧ ow = Item.user_id it
  | Responded r => is_error r = true
  | Thrown => True
  end.
Proof.
  split; [apply create_checks_reads|].
  unfold create_checks, Item_findById, populate_user, Swap_exists_pending. run.
  destruct (body_item_id req) as [i0|] eqn:Hid; run; [|done].
  destruct (items db !! i0) as [it0|] eqn:Hit; run; [|done].
  destruct (decide (Item.status it0 = Item.available)) as [Hs|Hs];
    [rewrite (bool_decide_eq_true_2 _ Hs)|rewrite (bool_decide_eq_false_2 _ Hs)];
    run; [|by destruct (users db !! Item.user_id it0)].
  destruct (users db !! Item.user_id it0) as [o|] eqn:Ho; run; [|done].
  destruct (decide (Item.user_id it0 = requester)) as [Hu|Hu];
    [rewrite (bool_decide_eq_true_2 _ Hu)|rewrite (bool_decide_eq_false_2 _ Hu)];
    run; [done|].
  destruct (existsb _ _) eqn:Hex; run; [done|].
  pose proof (validate_offered_value db requester (body_offered_item_id req)) as Hv.
  pose proof (validate_offered_error db requester (body_offered_item_id req)) as He.
  destruct (validate_offered requester (body_offered_item_id req) db)
    as [db' [[]|r|]]; simpl in *; [|by apply He|done].
  split; [|done]. constructor; eauto using no_pending_swap_check.
Qed.

Lemma create_unfold db requester req :
  create requester req db =
    match (create_checks requester req db).2 with
    | Value (i, it, ow) =>
        try_catch (create_writes requester req i it ow)
          "Failed to create swap request" db
    | Responded r => (db, r)
    | Thrown => (db, Failure 500 "Failed to create swap request" None)
    end.
Proof.
  destruct (create_checks_spec db requester req) as [Hdb _].
  unfold create, try_catch, create_body. run.
  destruct (create_checks requester req db) as [db' [[[i it] ow]|r|]];
    simpl in *; by subst db'.
Qed.

Lemma create_cases db requester req :
  create_result db requester req (create requester req db).
Proof.
  destruct (create_checks_spec db requester req) as [_ Hspec].
  pose proof (create_unfold db requester req) as Hun.
  destruct ((create_checks requester req db).2) as [[[i it] ow]|r|];
    [|rewrite Hun; by constructor..].
  destruct Hspec as [Hel ->]. clear Hun.
  destruct (js_ge (body_points_offered req) (Item.points it)) eqn:Hjs.
  - destruct (users db !! requester) as [u|] eqn:Hu.
    + destruct (Z.lt_ge_cases (User.points u) (Item.points it)) as [Hlt|Hge].
      * rewrite (create_insufficient _ _ _ _ _ Hel u Hjs Hu Hlt). by constructor.
      * rewrite (create_redemption _ _ _ _ _ Hel u Hjs Hu Hge).
        by apply (create_redeemed _ _ _ i it u).
    + rewrite create_unfold.
      rewrite (surjective_pairing (create_checks requester req db)) in *.
      pose proof (create_checks_pass _ _ _ _ _ Hel) as Hpass. rewrite Hpass. simpl.
      unfold try_catch, create_writes, redeem, User_findById. rewrite Hjs. run.
      rewrite Hu. run. by constructor.
  - destruct (Swap.validate (swap_doc requester i req)) eqn:Hval.
    + rewrite (create_request _ _ _ _ _ Hel Hjs Hval). by apply create_requested.
    + rewrite create_unfold.
      pose proof (create_checks_pass _ _ _ _ _ Hel) as Hpass. rewrite Hpass. simpl.
      unfold try_catch, create_writes, Swap_save_new. rewrite Hjs. run.
      unfold swap_doc in Hval. rewrite Hval. run. by constructor.
Qed.

Lemma decline_pending db id userId s item :
  swaps db !! id = Some s →
  items db !! Swap.item_id s = Some item →
  Item.user_id item = userId →
  Swap.status s = Swap.pending →
  decline id userId db =
    (after_decline id s item db,
     Success 200 None "Swap request declined successfully").
Proof.
  intros Hs Hi Ho Hp.
  unfold decline, try_catch, decline_body, Swap_findById_populate_item. run.
  rewrite Hs. run. rewrite Hi. run.
  rewrite (bool_decide_eq_true_2 _ Ho), (bool_decide_eq_true_2 _ Hp). run.
  unfold Swap_save_status, Activity_save, Activity.validate. run.
  rewrite trim_prefixed by reflexivity. reflexivity.
Qed.

Lemma cancel_pending db id userId s :
  swaps db !! id = Some s →
  Swap.requester_id s = userId →
  Swap.status s = Swap.pending →
  cancel id userId db =
    (after_cancel id db, Success 200 None "Swap request cancelled successfully").
Proof.
  intros Hs Hr Hp.
  unfold cancel, try_catch, cancel_body, Swap_findById. run.
  rewrite Hs. run.
  by rewrite (bool_decide_eq_true_2 _ Hr), (bool_decide_eq_true_2 _ Hp).
Qed.

Lemma accept_cases db id userId :
  accept_result db id userId (accept id userId db).
Proof.
  destruct (swaps db !! id) as [s|] eqn:Hs; cycle 1.
  { unfold accept, try_catch, accept_body, Swap_findById_populate_item. run.
    rewrite Hs. by constructor. }
  destruct (decide (Swap.status s = Swap.pending)) as [Hp|Hp]; cycle 1.
  { destruct (accept_not_pending db id userId s Hs Hp) as (r & -> & Hr).
    by constructor. }
  destruct (items db !! Swap.item_id s) as [item|] eqn:Hi; cycle 1.
  { unfold accept, try_catch, accept_body, Swap_findById_populate_item. run.
    rewrite Hs. run. rewrite Hi. by constructor. }
  destruct (decide (Item.user_id item = userId)) as [Ho|Ho].
  - rewrite (accept_pending db id userId s item Hs Hi Ho Hp).
    by apply (accept_settled _ _ _ s item).
  - unfold accept, try_catch, accept_body, Swap_findById_populate_item. run.
    rewrite Hs. run. rewrite Hi. run.
    rewrite (bool_decide_eq_false_2 _ Ho). by constructor.
Qed.

Lemma decline_cases db id userId :
  decline_result db id userId (decline id userId db).
Proof.
  destruct (swaps db !! id) as [s|] eqn:Hs; cycle 1.
  { unfold decline, try_catch, decline_body, Swap_findById_populate_item. run.
    rewrite Hs. by constructor. }
  destruct (decide (Swap.status s = Swap.pending)) as [Hp|Hp]; cycle 1.
  { destruct (decline_not_pending db id userId s Hs Hp) as (r & -> & Hr).
    by constructor. }
  destruct (items db !! Swap.item_id s) as [item|] eqn:Hi; cycle 1.
  { unfold decline, try_catch, decline_body, Swap_findById_populate_item. run.
    rewrite Hs. run. rewrite Hi. by constructor. }
  destruct (decide (Item.user_id item = userId)) as [Ho|Ho].
  - rewrite (decline_pending db id userId s item Hs Hi Ho Hp).
    by apply (decline_done _ _ _ s item).
  - unfold decline, try_catch, decline_body, Swap_findById_populate_item. run.
    rewrite Hs. run. rewrite Hi. run.
    rewrite (bool_decide_eq_false_2 _ Ho). by constructor.
Qed.

Lemma cancel_cases db id userId :
  cancel_result db id userId (cancel id userId db).
Proof.
  destruct (swaps db !! id) as [s|] eqn:Hs; cycle 1.
  { unfold cancel, try_catch, cancel_body, Swap_findById. run.
    rewrite Hs. by constructor. }
  destruct (decide (Swap.status s = Swap.pending)) as [Hp|Hp]; cycle 1.
  { destruct (cancel_not_pending db id userId s Hs Hp) as (r & -> & Hr).
    by constructor. }
  destruct (decide (Swap.requester_id s = userId)) as [Ho|Ho].
  - rewrite (cancel_pending db id userId s Hs Ho Hp).
    by apply (cancel_done _ _ _ s).
  - unfold cancel, try_catch, cancel_body, Swap_findById. run.
    rewrite Hs. run. rewrite (bool_decide_eq_false_2 _ Ho). by constructor.
Qed.

(** ** The create handler: refusals *)

Lemma existsb_pending_true db requester iid k s :
  swaps db !! k = Some s →
  Swap.requester_id s = requester → Swap.item_id s = iid →
  Swap.status s = Swap.pending →
  existsb (λ kv, is_pending_for requester iid kv.2) (map_to_list (swaps db)) = true.
Proof.
  intros Hk Hr Hi Hp. apply existsb_exists. exists (k, s). split.
  - by apply list_elem_of_In, elem_of_map_to_list.
  - unfold is_pending_for. simpl. by rewrite !bool_decide_eq_true_2.
Qed.

(** X1.  A request for an item that does not exist, or whose status is not
    available (pending approval, swapped or removed), is answered with 404
    and writes nothing, whatever else the request says. *)
Theorem create_needs_available_item db requester req iid :
  body_item_id req = Some iid →
  (∀ item, items db !! iid = Some item → Item.status item ≠ Item.available) →
  create requester req db =
    (db, Failure 404 "Item not found or not available" None).
Proof.
  intros Hid Hno. destruct (items db !! iid) as [item|] eqn:Hit.
  - exact (create_unavailable db requester req iid item Hid Hit (Hno item eq_refl)).
  - unfold create, try_catch, create_body, create_checks, Item_findById. run.
    rewrite Hid. run. by rewrite Hit.
Qed.

Lemma swapped_coat_gets_no_request :
  create 3%N (offer 200) first_accepted =
    (first_accepted, Failure 404 "Item not found or not available" None).
Proof.
  apply (create_needs_available_item first_accepted 3%N (offer 200) 10%N).
  - reflexivity.
  - intros item Hit. vm_compute in Hit. injection Hit as <-. discriminate.
Defined.

(** X2.  A request for one's own available item is answered with 400
    Cannot swap your own item and writes nothing, whatever points, offered
    item or message come with it. *)
Theorem create_own_item_refused db requester req iid item :
  body_item_id req = Some iid → items db !! iid = Some item →
  Item.status item = Item.available →
  Item.user_id item = requester → is_Some (users db !! requester) →
  create requester req db = (db, Failure 400 "Cannot swap your own item" None).
Proof.
  intros Hid Hit Hav Hown [o Ho].
  unfold create, try_catch, create_body, create_checks, Item_findById,
    populate_user. run.
  rewrite Hid. run. rewrite Hit. run. rewrite Hown, Ho. run.
  rewrite (bool_decide_eq_true_2 _ Hav). run.
  by rewrite (bool_decide_eq_true_2 _ eq_refl).
Qed.

Lemma owner_cannot_request_own_coat :
  create 1%N (offer 150) scenario_A =
    (scenario_A, Failure 400 "Cannot swap your own item" None).
Proof.
  apply (create_own_item_refused scenario_A 1%N (offer 150) 10%N
           (coat 150 Item.available)).
  - reflexivity.
  - vm_compute. reflexivity.
  - reflexivity.
  - reflexivity.
  - eexists. vm_compute. reflexivity.
Defined.

(** X3.  The duplicate check comes third.  For an item that is available
    and belongs to another existing user, while a swap of the requester on it
    is pending, a further request of theirs for that item is answered with
    400 You already have a pending swap request for this item and writes
    nothing, even when it offers the full valuation.  (When the item is no
    longer available the answer is the 404 of the first check.) *)
Theorem create_duplicate_refused db requester req iid item k s :
  body_item_id req = Some iid → items db !! iid = Some item →
  Item.status item = Item.available →
  is_Some (users db !! Item.user_id item) → Item.user_id item ≠ requester →
  swaps db !! k = Some s →
  Swap.requester_id s = requester → Swap.item_id s = iid →
  Swap.status s = Swap.pending →
  create requester req db =
    (db, Failure 400 "You already have a pending swap request for this item" None).
Proof.
  intros Hid Hit Hav [o Ho] Hne Hk Hr Hi Hp.
  unfold create, try_catch, create_body, create_checks, Item_findById,
    populate_user, Swap_exists_pending. run.
  rewrite Hid. run. rewrite Hit. run. rewrite Ho. run.
  rewrite (bool_decide_eq_true_2 _ Hav). run.
  rewrite (bool_decide_eq_false_2 _ Hne). run.
  by rewrite (existsb_pending_true db requester iid k s).
Qed.

Lemma second_request_is_refused :
  create 2%N (offer 200) scenario_C =
    (scenario_C,
     Failure 400 "You already have a pending swap request for this item" None).
Proof.
  apply (create_duplicate_refused scenario_C 2%N (offer 200) 10%N
           (coat 200 Item.available) 0%N (request_of 2%N Swap.pending)).
  - reflexivity.
  - vm_compute. reflexivity.
  - reflexivity.
  - eexists. vm_compute. reflexivity.
  - discriminate.
  - vm_compute. reflexivity.
  - reflexivity.
  - reflexivity.
  - reflexivity.
Defined.

(** X4.  An offered item is checked before anything is written: when the
    request passes the earlier checks but the offered item does not exist
    (404), is not the requester's (403) or is the requester's but not
    available (400), the request is refused and the store is untouched, also
    when the points offered reach the valuation. *)
Theorem create_invalid_offer_refused db requester req iid item oid :
  body_item_id req = Some iid → items db !! iid = Some item →
  Item.status item = Item.available →
  is_Some (users db !! Item.user_id item) → Item.user_id item ≠ requester →
  no_pending_swap db requester iid →
  body_offered_item_id req = Some oid →
  ¬ offered_ok db requester (Some oid) →
  create requester req db =
    (db,
     match items db !! oid with
     | None => Failure 404 "Offered item not found" None
     | Some o =>
         if bool_decide (Item.user_id o = requester)
         then Failure 400 "Offered item must be available" None
         else Failure 403 "You can only offer your own items" None
     end).
Proof.
  intros Hid Hit Hav [o Ho] Hne Hdup Hoff Hbad.
  unfold create, try_catch, create_body, create_checks, Item_findById,
    populate_user, Swap_exists_pending. run.
  rewrite Hid. run. rewrite Hit. run. rewrite Ho. run.
  rewrite (bool_decide_eq_true_2 _ Hav). run.
  rewrite (bool_decide_eq_false_2 _ Hne). run.
  rewrite (existsb_pending_false _ _ _ Hdup). run.
  rewrite Hoff. unfold validate_offered, Item_findById. run.
  destruct (items db !! oid) as [oi|] eqn:Hoi; run; [|done].
  destruct (decide (Item.user_id oi = requester)) as [Hu|Hu];
    [rewrite (bool_decide_eq_true_2 _ Hu)|by rewrite (bool_decide_eq_false_2 _ Hu)].
  run.
  destruct (decide (Item.status oi = Item.available)) as [Hs|Hs];
    [|by rewrite (bool_decide_eq_false_2 _ Hs)].
  destruct Hbad. by exists oi.
Qed.

Lemma unapproved_scarf_cannot_be_offered :
  create 2%N (offer_with 11%N 150) wardrobe =
    (wardrobe,
     match items wardrobe !! 11%N with
     | None => Failure 404 "Offered item not found" None
     | Some o =>
         if bool_decide (Item.user_id o = 2%N)
         then Failure 400 "Offered item must be available" None
         else Failure 403 "You can only offer your own items" None
     end).
Proof.
  apply (create_invalid_offer_refused wardrobe 2%N (offer_with 11%N 150) 10%N
           (coat 150 Item.available) 11%N).
  - reflexivity.
  - vm_compute. reflexivity.
  - reflexivity.
  - eexists. vm_compute. reflexivity.
  - discriminate.
  - apply no_pending_swap_check. vm_compute. reflexivity.
  - reflexivity.
  - intros (o & Ho & _ & Hs). vm_compute in Ho. injection Ho as <-. discriminate.
Defined.

(** X5.  Whenever create answers with a client error (any status other
    than 500), it has written nothing: no item, balance, swap or activity
    changed. *)
Theorem create_client_error_writes_nothing db requester req status error message :
  (create requester req db).2 = Failure status error message →
  status ≠ 500%nat →
  (create requester req db).1 = db.
Proof.
  intros Hr Hst. destruct (create_cases db requester req); simpl in *.
  - done.
  - discriminate.
  - injection Hr as <- _ _. done.
Qed.

Lemma refused_request_leaves_scenario_B :
  (create 2%N (offer 150) scenario_B).1 = scenario_B.
Proof.
  apply (create_client_error_writes_nothing scenario_B 2%N (offer 150) 400%nat
           "Insufficient points"
           (Some "You need 150 points to redeem this item. You have 100 points.")).
  - vm_compute. reflexivity.
  - discriminate.
Defined.

(** X6.  Whenever create answers with a success, it is the 201 of an
    ordinary request: the offer was below the valuation, exactly one swap
    document was stored, pending, under the returned fresh id, exactly one
    activity record (swap_request, no points) was appended for the requester,
    and no user and no item changed.  In particular create never answers
    Item redeemed successfully. *)
Theorem create_success_effect db requester req :
  is_error (create requester req db).2 = false →
  ∃ iid item,
    let db' := (create requester req db).1 in
    let id := fresh (dom (swaps db)) in
    eligible db requester req iid item ∧
    js_ge (body_points_offered req) (Item.points item) = false ∧
    (create requester req db).2 =
      Success 201 (Some id) "Swap request created successfully" ∧
    swaps db !! id = None ∧
    swaps db' = <[id := swap_doc requester iid req]> (swaps db) ∧
    Swap.status (swap_doc requester iid req) = Swap.pending ∧
    activities db' =
      (activities db ++
       [Activity.mk requester "swap_request"
          (trim ("Requested swap for " +:+ Item.title item)) 0 (Some iid)])%list ∧
    users db' = users db ∧ items db' = items db.
Proof.
  intros Hok. destruct (create_cases db requester req) as [r Hr|iid item Hel Hjs Hv|];
    simpl in *; [congruence| |discriminate].
  exists iid, item. split_and!; try done.
  apply not_elem_of_dom, is_fresh.
Qed.

Lemma request_after_decline_effect :
  ∃ iid item,
    let db' := (create 2%N (offer 0) scenario_declined).1 in
    let id := fresh (dom (swaps scenario_declined)) in
    eligible scenario_declined 2%N (offer 0) iid item ∧
    js_ge (body_points_offered (offer 0)) (Item.points item) = false ∧
    (create 2%N (offer 0) scenario_declined).2 =
      Success 201 (Some id) "Swap request created successfully" ∧
    swaps scenario_declined !! id = None ∧
    swaps db' = <[id := swap_doc 2%N iid (offer 0)]> (swaps scenario_declined) ∧
    Swap.status (swap_doc 2%N iid (offer 0)) = Swap.pending ∧
    activities db' =
      (activities scenario_declined ++
       [Activity.mk 2%N "swap_request"
          (trim ("Requested swap for " +:+ Item.title item)) 0 (Some iid)])%list ∧
    users db' = users scenario_declined ∧ items db' = items scenario_declined.
Proof.
  apply (create_success_effect scenario_declined 2%N (offer 0)).
  vm_compute. reflexivity.
Defined.

(** ** accept, decline and cancel: all or nothing *)

(** X7.  accept, decline and cancel are all-or-nothing: whenever one of
    them answers with an error (400, 403, 404 or 500), the store is exactly
    what it was. *)
Theorem swap_action_error_writes_nothing db id userId :
  (is_error (accept id userId db).2 = true → (accept id userId db).1 = db) ∧
  (is_error (decline id userId db).2 = true → (decline id userId db).1 = db) ∧
  (is_error (cancel id userId db).2 = true → (cancel id userId db).1 = db).
Proof.
  split; [|split].
  - destruct (accept_cases db id userId); simpl; [done|discriminate].
  - destruct (decline_cases db id userId); simpl; [done|discriminate].
  - destruct (cancel_cases db id userId); simpl; [done|discriminate].
Qed.

Lemma stranger_changes_nothing :
  (accept 0%N 3%N scenario_C).1 = scenario_C ∧
  (decline 0%N 3%N scenario_C).1 = scenario_C ∧
  (cancel 0%N 3%N scenario_C).1 = scenario_C.
Proof.
  destruct (swap_action_error_writes_nothing scenario_C 0%N 3%N) as (Ha & Hd & Hc).
  split; [|split]; [apply Ha|apply Hd|apply Hc]; vm_compute; reflexivity.
Defined.

(** ** What decline, cancel and accept write *)







(** X11.  The actor check comes before the status check: on an existing
    swap whose item exists, accept and decline by anyone but the item's
    owner, and cancel by anyone but the requester, are answered with 403
    and write nothing, whatever the status of the swap.  So the requester
    cannot accept their own request and the owner cannot cancel it. *)
Theorem wrong_actor_forbidden db id userId s item :
  swaps db !! id = Some s → items db !! Swap.item_id s = Some item →
  (userId ≠ Item.user_id item →
   accept id userId db =
     (db, Failure 403 "Only the item owner can accept swap requests" None) ∧
   decline id userId db =
     (db, Failure 403 "Only the item owner can decline swap requests" None)) ∧
  (userId ≠ Swap.requester_id s →
   cancel id userId db =
     (db, Failure 403 "Only the requester can cancel swap requests" None)).
Proof.
  intros Hs Hi. split.
  - intros Hne. assert (Item.user_id item ≠ userId) as Hne' by done. split.
    + unfold accept, try_catch, accept_body, Swap_findById_populate_item. run.
      rewrite Hs. run. rewrite Hi. run. by rewrite (bool_decide_eq_false_2 _ Hne').
    + unfold decline, try_catch, decline_body, Swap_findById_populate_item. run.
      rewrite Hs. run. rewrite Hi. run. by rewrite (bool_decide_eq_false_2 _ Hne').
  - intros Hne. assert (Swap.requester_id s ≠ userId) as Hne' by done.
    unfold cancel, try_catch, cancel_body, Swap_findById. run.
    rewrite Hs. run. by rewrite (bool_decide_eq_false_2 _ Hne').
Qed.

Lemma requester_cannot_accept_own_request :
  (accept 0%N 2%N scenario_C =
     (scenario_C, Failure 403 "Only the item owner can accept swap requests" None) ∧
   decline 0%N 2%N scenario_C =
     (scenario_C, Failure 403 "Only the item owner can decline swap requests" None)) ∧
  cancel 0%N 1%N scenario_C =
    (scenario_C, Failure 403 "Only the requester can cancel swap requests" None).
Proof.
  split.
  - apply (wrong_actor_forbidden scenario_C 0%N 2%N (request_of 2%N Swap.pending)
             (coat 200 Item.available));
      [vm_compute; reflexivity | vm_compute; reflexivity | discriminate].
  - apply (wrong_actor_forbidden scenario_C 0%N 1%N (request_of 2%N Swap.pending)
             (coat 200 Item.available));
      [vm_compute; reflexivity | vm_compute; reflexivity | discriminate].
Defined.

(** ** Deleting an item *)

(** X12.  Only the owner deletes an item: for anyone else the answer is
    403, for an unknown id 404, and nothing is written. *)
Theorem delete_item_refused db id userId :
  (∀ item, items db !! id = Some item → Item.user_id item ≠ userId) →
  (delete_item id userId db).1 = db ∧
  (delete_item id userId db).2 =
    match items db !! id with
    | Some _ => Failure 403 "You can only delete your own items" None
    | None => Failure 404 "Item not found" None
    end.
Proof.
  intros Hno. unfold delete_item, try_catch, delete_item_body, Item_findById. run.
  destruct (items db !! id) as [item|] eqn:Hi; run; [|done].
  by rewrite (bool_decide_eq_false_2 _ (Hno item eq_refl)).
Qed.

Lemma requester_cannot_delete_coat :
  (delete_item 10%N 2%N scenario_C).1 = scenario_C ∧
  (delete_item 10%N 2%N scenario_C).2 =
    match items scenario_C !! 10%N with
    | Some _ => Failure 403 "You can only delete your own items" None
    | None => Failure 404 "Item not found" None
    end.
Proof.
  apply (delete_item_refused scenario_C 10%N 2%N).
  intros item Hi. vm_compute in Hi. injection Hi as <-. discriminate.
Defined.

(** X13.  Deleting an item does not touch the swaps that point to it.  When
    the owner deletes an item, the answer is 200 and only the item goes; a
    swap on that item stays in the store, and from then on accept and decline
    of it are answered with 500 and write nothing, whoever calls, while the
    requester can still cancel it if it is pending. *)
Theorem delete_item_strands_swap db iid item id s :
  items db !! iid = Some item → swaps db !! id = Some s → Swap.item_id s = iid →
  let d := delete_item iid (Item.user_id item) db in
  d.2 = Success 200 None "Item deleted successfully" ∧
  items d.1 = delete iid (items db) ∧
  swaps d.1 = swaps db ∧ users d.1 = users db ∧ activities d.1 = activities db ∧
  (∀ userId,
     accept id userId d.1 = (d.1, Failure 500 "Failed to accept swap request" None) ∧
     decline id userId d.1 = (d.1, Failure 500 "Failed to decline swap request" None)) ∧
  (Swap.status s = Swap.pending →
   cancel id (Swap.requester_id s) d.1 =
     (after_cancel id d.1, Success 200 None "Swap request cancelled successfully")).
Proof.
  intros Hi Hs Hid d.
  assert (d = (set_items (delete iid) db,
               Success 200 None "Item deleted successfully")) as ->.
  { subst d. unfold delete_item, try_catch, delete_item_body, Item_findById,
      Item_findByIdAndDelete. run. rewrite Hi. run.
    by rewrite (bool_decide_eq_true_2 _ eq_refl). }
  simpl. split_and!; try done.
  - intros userId. split.
    + unfold accept, try_catch, accept_body, Swap_findById_populate_item. run.
      rewrite Hs. run. by rewrite Hid, lookup_delete_eq.
    + unfold decline, try_catch, decline_body, Swap_findById_populate_item. run.
      rewrite Hs. run. by rewrite Hid, lookup_delete_eq.
  - intros Hp. by apply (cancel_pending _ _ _ s).
Qed.

Lemma deleted_coat_strands_request :
  let d := delete_item 10%N 1%N scenario_C in
  d.2 = Success 200 None "Item deleted successfully" ∧
  items d.1 = delete 10%N (items scenario_C) ∧
  swaps d.1 = swaps scenario_C ∧ users d.1 = users scenario_C ∧
  activities d.1 = activities scenario_C ∧
  (∀ userId,
     accept 0%N userId d.1 = (d.1, Failure 500 "Failed to accept swap request" None) ∧
     decline 0%N userId d.1 = (d.1, Failure 500 "Failed to decline swap request" None)) ∧
  (Swap.status (request_of 2%N Swap.pending) = Swap.pending →
   cancel 0%N 2%N d.1 =
     (after_cancel 0%N d.1, Success 200 None "Swap request cancelled successfully")).
Proof.
  apply (delete_item_strands_swap scenario_C 10%N (coat 200 Item.available) 0%N
           (request_of 2%N Swap.pending)).
  - vm_compute. reflexivity.
  - vm_compute. reflexivity.
  - reflexivity.
Defined.

(** ** Invariants over every sequence of requests *)

Lemma set_status_same (s : Swap.t) : Swap.set_status (Swap.status s) s = s.
Proof. by destruct s. Qed.

Lemma run_calls_snoc cs c db :
  run_calls (cs ++ [c]) db = (run_call c (run_calls cs db)).1.
Proof. unfold run_calls. by rewrite foldl_app. Qed.

Lemma fresh_swap_id (db : Db) : swaps db !! fresh (dom (swaps db)) = None.
Proof. apply not_elem_of_dom, is_fresh. Qed.

(** What one request does to the swaps that are already there. *)
Lemma run_call_swaps c db k s :
  swaps db !! k = Some s →
  ∃ st, swaps (run_call c db).1 !! k = Some (Swap.set_status st s) ∧
        (st = Swap.status s ∨
         Swap.status s = Swap.pending ∧
         (st = Swap.completed ∨ st = Swap.declined ∨ st = Swap.cancelled)).
Proof.
  intros Hk.
  assert (∀ db', swaps db' = swaps db →
            ∃ st, swaps db' !! k = Some (Swap.set_status st s) ∧
                  (st = Swap.status s ∨
                   Swap.status s = Swap.pending ∧
                   (st = Swap.completed ∨ st = Swap.declined ∨ st = Swap.cancelled)))
    as Hsame.
  { intros db' ->. exists (Swap.status s). rewrite set_status_same. eauto. }
  assert (∀ doc, <[fresh (dom (swaps db)) := doc]> (swaps db) !! k = Some s) as Hins.
  { intros doc. rewrite lookup_insert_ne; [done|].
    intros <-. by rewrite fresh_swap_id in Hk. }
  assert (∀ id st0,
            (swaps db !! id = Some s → Swap.status s = Swap.pending) →
            st0 = Swap.completed ∨ st0 = Swap.declined ∨ st0 = Swap.cancelled →
            ∃ st, alter (Swap.set_status st0) id (swaps db) !! k =
                    Some (Swap.set_status st s) ∧
                  (st = Swap.status s ∨
                   Swap.status s = Swap.pending ∧
                   (st = Swap.completed ∨ st = Swap.declined ∨ st = Swap.cancelled)))
    as Halter.
  { intros id st0 Hp Hst0. destruct (decide (id = k)) as [->|Hne].
    - exists st0. rewrite lookup_alter_eq, Hk. eauto.
    - exists (Swap.status s). rewrite lookup_alter_ne, set_status_same by done. eauto. }
  destruct c as [requester req|id userId|id userId|id userId]; simpl.
  - destruct (create_cases db requester req); simpl.
    + by apply Hsame.
    + exists (Swap.status s). rewrite set_status_same, Hins. eauto.
    + exists (Swap.status s). rewrite set_status_same.
      destruct (Swap.validate _); simpl; [rewrite Hins|]; eauto.
  - destruct (accept_cases db id userId) as [|s0 item Hs0 _ _ Hp0]; simpl.
    + by apply Hsame.
    + apply Halter; [|eauto]. intros Hid. congruence.
  - destruct (decline_cases db id userId) as [|s0 item Hs0 _ _ Hp0]; simpl.
    + by apply Hsame.
    + apply Halter; [|eauto]. intros Hid. congruence.
  - destruct (cancel_cases db id userId) as [|s0 Hs0 _ Hp0]; simpl.
    + by apply Hsame.
    + apply Halter; [|eauto]. intros Hid. congruence.
Qed.

(** X14.  Whatever requests are served, in whatever order, a swap that is
    in the store stays in the store with the same requester, item, offered
    item, points and message; its status either stays or, if it was pending,
    becomes completed, declined or cancelled.  No sequence of requests
    deletes a swap, reopens one, or produces the status accepted. *)
Theorem swaps_only_leave_pending cs db k s :
  swaps db !! k = Some s →
  ∃ st, swaps (run_calls cs db) !! k = Some (Swap.set_status st s) ∧
        (st = Swap.status s ∨
         Swap.status s = Swap.pending ∧
         (st = Swap.completed ∨ st = Swap.declined ∨ st = Swap.cancelled)).
Proof.
  intros Hk. induction cs as [|c cs IH] using rev_ind.
  - exists (Swap.status s). rewrite set_status_same. eauto.
  - destruct IH as (st & Hst & Hcase). rewrite run_calls_snoc.
    destruct (run_call_swaps c _ k _ Hst) as (st' & Hst' & Hcase').
    exists st'. split; [by destruct s|].
    simpl in Hcase'. destruct Hcase' as [->|[-> Hterm]]; [done|].
    right. split; [|done].
    destruct Hcase as [Heq|[_ [?|[?|?]]]]; by try discriminate.
Qed.

Lemma declined_request_survives_calls :
  ∃ st,
    swaps (run_calls [CallCreate 2%N (offer 0); CallAccept 1%N 1%N;
                      CallCancel 0%N 2%N; CallAccept 0%N 1%N] scenario_declined)
      !! 0%N = Some (Swap.set_status st (request_of 2%N Swap.declined)) ∧
    (st = Swap.status (request_of 2%N Swap.declined) ∨
     Swap.status (request_of 2%N Swap.declined) = Swap.pending ∧
     (st = Swap.completed ∨ st = Swap.declined ∨ st = Swap.cancelled)).
Proof.
  apply (swaps_only_leave_pending
           [CallCreate 2%N (offer 0); CallAccept 1%N 1%N;
            CallCancel 0%N 2%N; CallAccept 0%N 1%N]
           scenario_declined 0%N (request_of 2%N Swap.declined)).
  vm_compute. reflexivity.
Defined.

Lemma item_set_swapped_twice i :
  Item.set_status Item.swapped (Item.set_status Item.swapped i) =
  Item.set_status Item.swapped i.
Proof. reflexivity. Qed.

Lemma alter_swapped_cases (m : gmap N Item.t) id k :
  alter (Item.set_status Item.swapped) id m !! k = m !! k ∨
  ∃ i, m !! k = Some i ∧
       alter (Item.set_status Item.swapped) id m !! k =
         Some (Item.set_status Item.swapped i).
Proof.
  destruct (decide (id = k)) as [->|Hne].
  - rewrite lookup_alter_eq. destruct (m !! k) as [i|]; [right; eauto|by left].
  - left. by rewrite lookup_alter_ne.
Qed.

Lemma run_call_items c db k :
  items (run_call c db).1 !! k = items db !! k ∨
  ∃ i, items db !! k = Some i ∧
       items (run_call c db).1 !! k = Some (Item.set_status Item.swapped i).
Proof.
  destruct c as [requester req|id userId|id userId|id userId]; simpl.
  - destruct (create_cases db requester req) as [| |iid item u]; simpl; [by left..|].
    destruct (Swap.validate _); simpl; apply (alter_swapped_cases _ iid).
  - destruct (accept_cases db id userId) as [|s item]; simpl; [by left|].
    apply (alter_swapped_cases _ (Swap.item_id s)).
  - destruct (decline_cases db id userId); simpl; by left.
  - destruct (cancel_cases db id userId); simpl; by left.
Qed.

(** X15.  Whatever requests are served, the swap routes never create,
    delete, re-own, rename or re-price an item: each item id holds what it
    held before, or the same item with status swapped.  An item that is
    swapped stays swapped. *)
Theorem items_only_become_swapped cs db k :
  items (run_calls cs db) !! k = items db !! k ∨
  ∃ i, items db !! k = Some i ∧
       items (run_calls cs db) !! k = Some (Item.set_status Item.swapped i).
Proof.
  induction cs as [|c cs IH] using rev_ind; [by left|].
  rewrite run_calls_snoc.
  destruct (run_call_items c (run_calls cs db) k) as [->|(i & Hi & ->)]; [done|].
  right. destruct IH as [Heq|(i0 & Hi0 & Heq)].
  - exists i. by rewrite <- Heq.
  - exists i0. split; [done|]. rewrite Heq in Hi. by injection Hi as <-.
Qed.

Lemma run_call_levels c db k :
  User.level <$> users (run_call c db).1 !! k = User.level <$> users db !! k.
Proof.
  destruct c as [requester req|id userId|id userId|id userId]; simpl.
  - destruct (create_cases db requester req) as [| |iid item u]; simpl; [done..|].
    destruct (Swap.validate _); apply (after_redeem_keeps_levels db requester iid item k).
  - destruct (accept_cases db id userId) as [|s item]; simpl; [done|].
    apply (after_accept_keeps_levels db id userId s item k).
  - by destruct (decline_cases db id userId).
  - by destruct (cancel_cases db id userId).
Qed.

(** X16.  Whatever requests are served, the swap routes never create or
    delete a user and never write a level: every user id holds a user with
    the level it had before, or no user as before. *)
Theorem levels_untouched cs db k :
  User.level <$> users (run_calls cs db) !! k = User.level <$> users db !! k.
Proof.
  induction cs as [|c cs IH] using rev_ind; [done|].
  by rewrite run_calls_snoc, run_call_levels.
Qed.

Lemma run_call_log c db :
  activities db `prefix_of` activities (run_call c db).1.
Proof.
  destruct c as [requester req|id userId|id userId|id userId]; simpl.
  - destruct (create_cases db requester req); simpl.
    + done.
    + by apply prefix_app_r.
    + by destruct (Swap.validate _).
  - destruct (accept_cases db id userId); simpl; [done|].
    by do 2 apply prefix_app_r.
  - destruct (decline_cases db id userId); simpl; [done|]. by apply prefix_app_r.
  - by destruct (cancel_cases db id userId).
Qed.

(** X17.  The activity log is append-only under the swap routes: after any
    sequence of requests the old log is a prefix of the new one, so no record
    is removed, changed or reordered. *)
Theorem activity_log_append_only cs db :
  activities db `prefix_of` activities (run_calls cs db).
Proof.
  induction cs as [|c cs IH] using rev_ind; [done|].
  rewrite run_calls_snoc. etrans; [exact IH|apply run_call_log].
Qed.

(** ** The duplicate guard as an invariant *)

Lemma unique_pending_alter db db' id st :
  swaps db' = alter (Swap.set_status st) id (swaps db) → st ≠ Swap.pending →
  unique_pending db → unique_pending db'.
Proof.
  intros Hsw Hst Hun k1 k2 s1 s2 H1 H2 Hr Hi Hp1 Hp2.
  rewrite Hsw in H1, H2.
  destruct (decide (id = k1)) as [->|Hn1].
  { rewrite lookup_alter_eq in H1.
    destruct (swaps db !! k1); simpl in H1; by simplify_eq. }
  destruct (decide (id = k2)) as [->|Hn2].
  { rewrite lookup_alter_eq in H2.
    destruct (swaps db !! k2); simpl in H2; by simplify_eq. }
  rewrite lookup_alter_ne in H1, H2 by done.
  exact (Hun k1 k2 s1 s2 H1 H2 Hr Hi Hp1 Hp2).
Qed.

Lemma unique_pending_insert db db' requester iid req :
  swaps db' = <[fresh (dom (swaps db)) := swap_doc requester iid req]> (swaps db) →
  no_pending_swap db requester iid →
  unique_pending db → unique_pending db'.
Proof.
  intros Hsw Hno Hun k1 k2 s1 s2 H1 H2 Hr Hi Hp1 Hp2.
  rewrite Hsw in H1, H2.
  destruct (decide (fresh (dom (swaps db)) = k1)) as [<-|Hn1];
    destruct (decide (fresh (dom (swaps db)) = k2)) as [<-|Hn2]; [done|..].
  - rewrite lookup_insert_eq in H1. rewrite lookup_insert_ne in H2 by done.
    injection H1 as <-. simpl in *. destruct (Hno k2 s2); done.
  - rewrite lookup_insert_eq in H2. rewrite lookup_insert_ne in H1 by done.
    injection H2 as <-. simpl in *. destruct (Hno k1 s1); done.
  - rewrite lookup_insert_ne in H1, H2 by done.
    exact (Hun k1 k2 s1 s2 H1 H2 Hr Hi Hp1 Hp2).
Qed.

Lemma unique_pending_same db db' :
  swaps db' = swaps db → unique_pending db → unique_pending db'.
Proof. intros Hsw Hun k1 k2 s1 s2. rewrite Hsw. apply Hun. Qed.

Lemma run_call_unique_pending c db :
  unique_pending db → unique_pending (run_call c db).1.
Proof.
  intros Hun.
  destruct c as [requester req|id userId|id userId|id userId]; simpl.
  - destruct (create_cases db requester req) as [|iid item Hel|iid item u Hel]; simpl.
    + done.
    + apply (unique_pending_insert db _ requester iid req); [done| |done].
      apply (el_no_dup _ _ _ _ _ Hel).
    + destruct (Swap.validate _).
      * apply (unique_pending_insert db _ requester iid req); [done| |done].
        apply (el_no_dup _ _ _ _ _ Hel).
      * by apply (unique_pending_same db).
  - destruct (accept_cases db id userId); simpl; [done|].
    by apply (unique_pending_alter db _ id Swap.completed).
  - destruct (decline_cases db id userId); simpl; [done|].
    by apply (unique_pending_alter db _ id Swap.declined).
  - destruct (cancel_cases db id userId); simpl; [done|].
    by apply (unique_pending_alter db _ id Swap.cancelled).
Qed.

(** X18.  Served one after the other, the swap routes keep the duplicate
    guard as an invariant: if no requester has two pending swaps on the same
    item, then this is still so after any sequence of create, accept, decline
    and cancel requests. *)
Theorem unique_pending_preserved cs db :
  unique_pending db → unique_pending (run_calls cs db).
Proof.
  intros Hun. induction cs as [|c cs IH] using rev_ind; [done|].
  rewrite run_calls_snoc. by apply run_call_unique_pending.
Qed.

Lemma unique_pending_after_two_requests :
  unique_pending
    (run_calls [CallCreate 2%N (offer 0); CallCreate 2%N (offer 0);
                CallCreate 3%N (offer 0); CallCancel 0%N 2%N;
                CallCreate 2%N (offer 10)] (store 0 0 200 ∅)).
Proof.
  apply (unique_pending_preserved
           [CallCreate 2%N (offer 0); CallCreate 2%N (offer 0);
            CallCreate 3%N (offer 0); CallCancel 0%N 2%N;
            CallCreate 2%N (offer 10)] (store 0 0 200 ∅)).
  intros k1 k2 s1 s2 H1. vm_compute in H1. discriminate.
Defined.

(** ** The ledger and the activity log *)

Lemma points_logged_app uid l1 l2 :
  points_logged uid (l1 ++ l2) = points_logged uid l1 + points_logged uid l2.
Proof.
  unfold points_logged. induction l1 as [|a l1 IH]; simpl; [done|].
  rewrite IH. case_bool_decide; lia.
Qed.

Lemma lookup_inc (m : gmap N User.t) id d k u :
  m !! k = Some u →
  alter (User.inc_points d) id m !! k =
    Some (if decide (id = k) then User.inc_points d u else u).
Proof.
  intros Hk. case_decide as Hid.
  - subst id. by rewrite lookup_alter_eq, Hk.
  - by rewrite lookup_alter_ne.
Qed.



(** ** Levels *)

(** X20.  updateLevel keeps the balance, ignores the level the user had,
    always yields a level on the enum list of the schema (so the save that
    follows is never rejected for it), and is idempotent. *)
Theorem updateLevel_sound u :
  User.points (User.updateLevel u) = User.points u ∧
  User.level (User.updateLevel u) = derived_level (User.points u) ∧
  User.level (User.updateLevel u) ∈ User.level_enum ∧
  User.updateLevel (User.updateLevel u) = User.updateLevel u.
Proof.
  destruct u as [p l]. unfold derived_level, User.updateLevel, User.level_enum. simpl.
  destruct (1000 <=? p) eqn:H1; simpl; [rewrite ?H1; split_and!; try done; set_solver|].
  destruct (500 <=? p) eqn:H2; simpl; [rewrite ?H1, ?H2; split_and!; try done; set_solver|].
  destruct (100 <=? p) eqn:H3; simpl; rewrite ?H1, ?H2, ?H3; split_and!; try done; set_solver.
Qed.

(** X21.  The tiers have inclusive lower bounds: the derived level is Swap
    Master exactly from 1000 points, Eco Champion exactly from 500 to 999,
    Fashion Enthusiast exactly from 100 to 499, and Newcomer exactly below
    100, negative balances included. *)
Theorem derived_level_thresholds p :
  (derived_level p = "Swap Master" ↔ 1000 ≤ p) ∧
  (derived_level p = "Eco Champion" ↔ 500 ≤ p < 1000) ∧
  (derived_level p = "Fashion Enthusiast" ↔ 100 ≤ p < 500) ∧
  (derived_level p = "Newcomer" ↔ p < 100).
Proof.
  unfold derived_level, User.updateLevel. simpl.
  destruct (Z.leb_spec 1000 p); simpl; [split_and!; split; (done || lia)|].
  destruct (Z.leb_spec 500 p); simpl; [split_and!; split; (done || lia)|].
  destruct (Z.leb_spec 100 p); simpl; split_and!; split; (done || lia).
Qed.

(** ** The admin routes *)



(** X23.  The admin adjustment writes nothing when the user does not exist
    (404) or when the amount does not parse (400, checked after the user). *)
Theorem adjust_points_refused db id points reason :
  users db !! id = None ∨ points = None →
  adjust_points id points reason db =
    (db,
     match users db !! id with
     | None => Failure 404 "User not found" None
     | Some _ => Failure 400 "Invalid points value" None
     end).
Proof.
  intros Hcase.
  unfold adjust_points, try_catch, adjust_points_body, User_findById. run.
  destruct (users db !! id) as [u|]; run; [|done].
  destruct Hcase as [?| ->]; done.
Qed.

Lemma unparsed_amount_is_refused :
  adjust_points 2%N None "typo" scenario_A =
    (scenario_A,
     match users scenario_A !! 2%N with
     | None => Failure 404 "User not found" None
     | Some _ => Failure 400 "Invalid points value" None
     end).
Proof.
  apply (adjust_points_refused scenario_A 2%N None "typo"). right. reflexivity.
Defined.


(** X25.  Admin rejection never writes anything and always answers with an
    error: 404 for an unknown id, 400 for an item that is not pending, and
    for a pending item 500, because the status it assigns (rejected) is not
    on the enum list of the item schema and the save is refused.  A pending
    item stays pending. *)
Theorem reject_item_never_writes db id reason :
  reject_item id reason db =
    (db,
     match items db !! id with
     | None => Failure 404 "Item not found" None
     | Some item =>
         if bool_decide (Item.status item = Item.pending)
         then Failure 500 "Failed to reject item" None
         else Failure 400 "Item is not pending approval" None
     end).
Proof.
  unfold reject_item, try_catch, reject_item_body, Item_findById,
    Item_save_status. run.
  destruct (items db !! id) as [item|]; run; [|done].
  by destruct (bool_decide (Item.status item = Item.pending)).
Qed.

(** X26.  Admin removal never deletes an item: the activity record it saves
    first has a type (item_removed) outside the schema's enum, so for every
    existing item the handler ends with 500 before the delete, and for an
    unknown id with 404; the store is never changed. *)
Theorem remove_item_never_deletes db id reason :
  remove_item id reason db =
    (db,
     match items db !! id with
     | None => Failure 404 "Item not found" None
     | Some _ => Failure 500 "Failed to remove item" None
     end).
Proof.
  unfold remove_item, try_catch, remove_item_body, Item_findById,
    Activity_save. run.
  by destruct (items db !! id) as [item|].
Qed.

(** ** Rate limiting of login attempts *)

Lemma recordLoginAttempts_lookup email times (m : gmap string (list Z)) :
  times ≠ [] →
  recordLoginAttempts email times m !! email =
    Some (default [] (m !! email) ++ times)%list.
Proof.
  unfold recordLoginAttempts.
  induction times as [|t times IH] using rev_ind; [done|]. intros _.
  rewrite foldl_app. simpl. unfold recordLoginAttempt at 1.
  rewrite lookup_insert_eq. f_equal.
  destruct times as [|t0 times0].
  - simpl. done.
  - rewrite IH by done. simpl. by rewrite <- app_assoc.
Qed.

(** X27.  Recording and checking compose as a sliding window: for an
    email without earlier entry, after any number of recorded attempts the
    limiter answers true exactly when at least five of the recorded times are
    less than 15 minutes (900000 ms) before the time of the check. *)
Theorem rate_limit_counts_recent email times now (m : gmap string (list Z)) :
  m !! email = None →
  (isRateLimited email now (recordLoginAttempts email times m)).1 =
    bool_decide (5 ≤ length (List.filter (λ t, (now - t <? 900000)%Z) times))%nat.
Proof.
  intros Hm. unfold isRateLimited.
  destruct times as [|t times].
  - simpl. by rewrite Hm.
  - rewrite recordLoginAttempts_lookup, Hm by done. simpl (default _ _ ++ _)%list.
    unfold recent. change (15 * 60 * 1000) with 900000.
    destruct (Nat.leb_spec 5
                (length (List.filter (λ t0, (now - t0 <? 900000)%Z) (t :: times))))
      as [H5|H5]; simpl; symmetry.
    + by apply bool_decide_eq_true_2.
    + apply bool_decide_eq_false_2. intros H5'. simpl in H5, H5'. lia.
Qed.

Lemma fifth_quick_attempt_blocks :
  (isRateLimited "ann@example.org" 60000
     (recordLoginAttempts "ann@example.org" [0; 1000; 2000; 3000; 4000] ∅)).1 =
    bool_decide
      (5 ≤ length (List.filter (λ t, (60000 - t <? 900000)%Z) [0; 1000; 2000; 3000; 4000]%Z))%nat.
Proof.
  apply (rate_limit_counts_recent "ann@example.org" [0; 1000; 2000; 3000; 4000] 60000 ∅).
  reflexivity.
Defined.

Lemma recent_recent now now' l :
  now ≤ now' → recent now' (recent now l) = recent now' l.
Proof.
  intros Hle. unfold recent. induction l as [|t l IH]; simpl; [done|].
  destruct (Z.ltb_spec (now - t) (15 * 60 * 1000)); simpl.
  - by rewrite IH.
  - rewrite IH. destruct (Z.ltb_spec (now' - t) (15 * 60 * 1000)); [lia|done].
Qed.

(** X28.  Pruning is safe when the clock does not go back: a check at some
    time, whatever it answered and pruned, does not change the answer of any
    check at the same or a later time, for any email. *)
Theorem rate_limit_pruning_is_safe email email' now now' (m : gmap string (list Z)) :
  now ≤ now' →
  (isRateLimited email' now' (isRateLimited email now m).2).1 =
  (isRateLimited email' now' m).1.
Proof.
  intros Hle. unfold isRateLimited at 2.
  destruct (m !! email) as [attempts|] eqn:Hm; [|done].
  destruct (5 <=? length (recent now attempts))%nat; [done|]. simpl.
  unfold isRateLimited. destruct (decide (email = email')) as [<-|Hne].
  - rewrite lookup_insert_eq, Hm, recent_recent by done.
    by destruct (5 <=? length (recent now' attempts))%nat.
  - rewrite lookup_insert_ne by done.
    destruct (m !! email') as [attempts'|]; [|done].
    by destruct (5 <=? length (recent now' attempts'))%nat.
Qed.

Lemma early_check_does_not_unblock :
  (isRateLimited "ann@example.org" 60000
     (isRateLimited "ann@example.org" 3500
        (recordLoginAttempts "ann@example.org" [0; 1000; 2000; 3000; 4000] ∅)).2).1 =
  (isRateLimited "ann@example.org" 60000
     (recordLoginAttempts "ann@example.org" [0; 1000; 2000; 3000; 4000] ∅)).1.
Proof.
  apply (rate_limit_pruning_is_safe "ann@example.org" "ann@example.org" 3500 60000).
  lia.
Defined.

(** X29.  The limiter is per email: recording an attempt for one email
    changes neither the stored attempts nor the answer for any other email. *)
Theorem rate_limit_is_per_email email email' t now (m : gmap string (list Z)) :
  email ≠ email' →
  recordLoginAttempt email t m !! email' = m !! email' ∧
  (isRateLimited email' now (recordLoginAttempt email t m)).1 =
  (isRateLimited email' now m).1.
Proof.
  intros Hne. assert (recordLoginAttempt email t m !! email' = m !! email') as Hl
    by (unfold recordLoginAttempt; by rewrite lookup_insert_ne).
  split; [done|]. unfold isRateLimited. rewrite Hl.
  destruct (m !! email') as [attempts|]; [|done].
  by destruct (5 <=? length (recent now attempts))%nat.
Qed.

Lemma bob_is_not_blocked_by_ann :
  recordLoginAttempt "ann@example.org" 5000 ∅ !! "bob@example.org" =
    (∅ : gmap string (list Z)) !! "bob@example.org" ∧
  (isRateLimited "bob@example.org" 6000
     (recordLoginAttempt "ann@example.org" 5000 ∅)).1 =
  (isRateLimited "bob@example.org" 6000 ∅).1.
Proof.
  apply (rate_limit_is_per_email "ann@example.org" "bob@example.org" 5000 6000 ∅).
  discriminate.
Defined.

(** ** Account lockout *)

Lemma failed_logins_snoc times t u :
  Lockout.failed_logins (times ++ [t]) u =
  Lockout.handleFailedLogin t (Lockout.failed_logins times u).
Proof. unfold Lockout.failed_logins. by rewrite foldl_app. Qed.

(** X30.  Counting from a reset account, after n failed logins the counter
    is n; the account is unlocked after fewer than five failures and, from
    the fifth on, locked until exactly 15 minutes after the latest failure:
    isLocked is true before that instant and false from it on. *)
Theorem failed_logins_lock times u0 now :
  let u := Lockout.failed_logins times (Lockout.resetFailedLoginAttempts u0) in
  Lockout.failed_login_attempts u = Z.of_nat (length times) ∧
  Lockout.lockout_until u =
    (if (5 <=? length times)%nat then Some (List.last times 0 + 900000) else None) ∧
  Lockout.isLocked now u =
    (5 <=? length times)%nat && (now <? List.last times 0 + 900000).
Proof.
  cbv zeta.
  assert (Lockout.failed_login_attempts
            (Lockout.failed_logins times (Lockout.resetFailedLoginAttempts u0)) =
            Z.of_nat (length times) ∧
          Lockout.lockout_until
            (Lockout.failed_logins times (Lockout.resetFailedLoginAttempts u0)) =
            (if (5 <=? length times)%nat
             then Some (List.last times 0 + 900000) else None)) as [Hn Hl].
  { induction times as [|t times [IHn IHl]] using rev_ind; [split; reflexivity|].
    rewrite failed_logins_snoc, length_app, last_last. simpl length.
    unfold Lockout.handleFailedLogin. rewrite IHn.
    change (15 * 60 * 1000) with 900000.
    destruct (Z.leb_spec 5 (Z.of_nat (length times) + 1)) as [H5|H5];
      cbn [Lockout.failed_login_attempts Lockout.lockout_until].
    - split; [lia|]. destruct (Nat.leb_spec 5 (length times + 1)); [done|lia].
    - split; [lia|]. rewrite IHl.
      destruct (Nat.leb_spec 5 (length times + 1)); [lia|].
      destruct (Nat.leb_spec 5 (length times)); [lia|done]. }
  split_and!; [done..|]. unfold Lockout.isLocked. rewrite Hl.
  by destruct (5 <=? length times)%nat.
Qed.
